(** * The Osintgram command shell ([main.py]): dispatcher, loop and formatter

    A shallow embedding of [main.py].  The module is a thin interactive shell
    around an external collaborator (the [Osintgram] object): it validates the
    target name, builds a registry of zero-argument commands, and either runs
    one command or loops reading lines from the terminal.

    Conventions of the embedding.
    - A Python [str] is a [string]; a character is a code point below 256 and
      the two character tables in use ([str.isspace] behind [str.strip], and
      [str.isalnum]) are written out for that range.
    - Effects are threaded through a state and error monad [M]: the state is
      the collaborator, the trace of observable events, and the pending
      interrupt; a computation ends by returning, by raising a Python
      exception, or blocked in [input()] once the typed lines are used up.
    - The [while True] loop consumes one terminal event per iteration, so it
      is a structural recursion over the list of terminal events.
    - [main] is taken from the parsed arguments on.  [setup_autocomplete] is
      never called and is left out. *)

From Stdlib Require Import ZArith Ascii String.
From stdpp Require Import base strings gmap list.

Local Open Scope string_scope.
Local Open Scope list_scope.

(** ** Strings *)

(** The characters Python writes as [\n] and [\t]. *)
Definition nl : string := String (ascii_of_nat 10) "".
Definition tab : string := String (ascii_of_nat 9) "".

(** [str.isspace] on one character, code points below 256:
    U+0009..U+000D, U+001C..U+0020, U+0085 and U+00A0. *)
Definition isspace (c : ascii) : bool :=
  let n := nat_of_ascii c in
  (((9 <=? n) && (n <=? 13)) || ((28 <=? n) && (n <=? 32))
   || (n =? 133) || (n =? 160))%nat.

(** Strip leading whitespace. *)
Fixpoint lstrip (s : string) : string :=
  match s with
  | "" => ""
  | String c s' => if isspace c then lstrip s' else s
  end.

(** Strip trailing whitespace. *)
Fixpoint rstrip (s : string) : string :=
  match s with
  | "" => ""
  | String c s' =>
      match rstrip s' with
      | "" => if isspace c then "" else String c ""
      | r => String c r
      end
  end.

(** [str.strip()] with no argument. *)
Definition strip (s : string) : string := rstrip (lstrip s).

(** One character of [str.isalnum], code points below 256: the decimal
    digits, the ASCII letters, and the Latin-1 letters and numerics. *)
Definition isalnum_char (c : ascii) : bool :=
  let n := nat_of_ascii c in
  (((48 <=? n) && (n <=? 57)) || ((65 <=? n) && (n <=? 90))
   || ((97 <=? n) && (n <=? 122))
   || (n =? 170) || (n =? 178) || (n =? 179) || (n =? 181)
   || (n =? 185) || (n =? 186) || ((188 <=? n) && (n <=? 190))
   || ((192 <=? n) && (n <=? 214)) || ((216 <=? n) && (n <=? 246))
   || ((248 <=? n) && (n <=? 255)))%nat.

Fixpoint all_chars (p : ascii -> bool) (s : string) : bool :=
  match s with
  | "" => true
  | String c s' => p c && all_chars p s'
  end.

(** [str.isalnum()]: at least one character, and all of them alphanumeric. *)
Definition isalnum (s : string) : bool :=
  match s with
  | "" => false
  | _ => all_chars isalnum_char s
  end.

(** Truth value of an optional string ([None] and [''] are false). *)
Definition truthy (o : option string) : bool :=
  match o with
  | Some (String _ _) => true
  | _ => false
  end.

(** ** The collaborator's interface and the command registry *)

(** [pc.RED] and the other colours handed to [pc.printout]. *)
Inductive color := RED | YELLOW | GREEN | CYAN.

(** The zero-argument methods of the collaborator that the registry binds. *)
Inductive method :=
| get_addrs | clear_cache | get_captions | get_comment_data
| get_total_comments | get_followers | get_followings
| get_fwersemail | get_fwingsemail | get_fwersnumber | get_fwingsnumber
| get_hashtags | get_user_info | get_total_likes | get_media_type
| get_photo_description | get_user_photo | get_user_propic
| get_user_stories | get_people_tagged_by_user | change_target
| get_people_who_commented | get_people_who_tagged.

(** The callables stored in the registry. *)
Inductive action :=
| print_commands_fn                              (* print_commands *)
| sys_exit_fn                                    (* sys.exit *)
| bound (m : method)                             (* api.m *)
| full_data (m : method) (title : string).       (* lambda: print_full_data(api.m(), title) *)

(** The entries of the dictionary literal [commands] in [main]. *)
Definition commands_items : list (string * action) :=
    [ ("list", print_commands_fn);
      ("help", print_commands_fn);
      ("quit", sys_exit_fn);
      ("exit", sys_exit_fn);
      ("addrs", bound get_addrs);
      ("cache", bound clear_cache);
      ("captions", bound get_captions);
      ("commentdata", bound get_comment_data);
      ("comments", bound get_total_comments);
      ("followers", bound get_followers);
      ("followings", bound get_followings);
      ("fwersemail", full_data get_fwersemail "Follower Emails");
      ("fwingsemail", full_data get_fwingsemail "Following Emails");
      ("fwersnumber", full_data get_fwersnumber "Follower Phone Numbers");
      ("fwingsnumber", full_data get_fwingsnumber "Following Phone Numbers");
      ("hashtags", bound get_hashtags);
      ("info", bound get_user_info);
      ("likes", bound get_total_likes);
      ("mediatype", bound get_media_type);
      ("photodes", bound get_photo_description);
      ("photos", bound get_user_photo);
      ("propic", bound get_user_propic);
      ("stories", bound get_user_stories);
      ("tagged", bound get_people_tagged_by_user);
      ("target", bound change_target);
      ("wcommented", bound get_people_who_commented);
      ("wtagged", bound get_people_who_tagged) ].

(** [commands], the dictionary built in [main]. *)
Definition commands : gmap string action := list_to_map commands_items.

(** [command_list], the help table of [print_commands]; a dictionary that is
    only iterated, in insertion order. *)
Definition command_list : list (string * string) :=
  [ ("FILE=y/n", "Enable/disable output in '<target username>_<command>.txt'");
    ("JSON=y/n", "Enable/disable export in '<target username>_<command>.json'");
    ("addrs", "Get all registered addresses from target's photos");
    ("cache", "Clear cache of the tool");
    ("captions", "Get target's photo captions");
    ("commentdata", "Get a list of all comments on target's posts");
    ("comments", "Get total comments on target's posts");
    ("followers", "Get target's followers");
    ("followings", "Get users followed by target");
    ("fwersemail", "Get FULL email addresses of target's followers");
    ("fwingsemail", "Get FULL email addresses of users followed by target");
    ("fwersnumber", "Get FULL phone numbers of target's followers");
    ("fwingsnumber", "Get FULL phone numbers of users followed by target");
    ("hashtags", "Get hashtags used by target");
    ("info", "Get target info");
    ("likes", "Get total likes on target's posts");
    ("mediatype", "Get types of target's posts (photo/video)");
    ("photodes", "Get descriptions of target's photos");
    ("photos", "Download target's photos");
    ("propic", "Download target's profile picture");
    ("stories", "Download target's stories");
    ("tagged", "Get users tagged by target");
    ("target", "Set a new target");
    ("wcommented", "Get users who commented on target's photos");
    ("wtagged", "Get users who tagged the target") ].

(** The parsed command line ([args] in [main]). *)
Record Namespace := {
  args_id : string;
  args_cookies : bool;
  args_json : bool;
  args_file : bool;
  args_command : option string;
  args_output : option string
}.

(** ** Exceptions and results *)

(** What a Python call can raise.  [SystemExit] and the other direct
    children of [BaseException] are not instances of [Exception]. *)
Inductive pyexc :=
| SystemExit (code : option Z)
| BaseOnly (cls : string)
| ExceptionOf (cls : string) (msg : string).

(** [isinstance(e, Exception)]. *)
Definition is_Exception (e : pyexc) : bool :=
  match e with
  | ExceptionOf _ _ => true
  | _ => false
  end.

(** [str(e)], as interpolated by the loop's error report; the loop applies it
    to instances of [Exception] only. *)
Definition str_exc (e : pyexc) : string :=
  match e with
  | ExceptionOf _ msg => msg
  | BaseOnly _ => ""
  | SystemExit _ => ""
  end.

Inductive outcome (A : Type) :=
| Ok (a : A)
| Raise (e : pyexc)
| Blocked.
Arguments Ok {A} a.
Arguments Raise {A} e.
Arguments Blocked {A}.

(** How the interpreter ends the process for a finished [main]. *)
Definition exit_status {A} (r : outcome A) : option Z :=
  match r with
  | Ok _ => Some 0%Z
  | Raise (SystemExit None) => Some 0%Z
  | Raise (SystemExit (Some n)) => Some (Z.land n 255)
  | Raise _ => Some 1%Z
  | Blocked => None
  end.

(** An exception that reaches the top level prints a traceback, unless it is
    [SystemExit]. *)
Definition unhandled_error {A} (r : outcome A) : bool :=
  match r with
  | Raise (SystemExit _) => false
  | Raise _ => true
  | _ => false
  end.

(** What the terminal delivers to one call of [input()]. *)
Inductive input_event :=
| Line (text : string)
| EOF.

(** The observable events of a run, oldest first. *)
Inductive event :=
| Printout (text : string) (c : option color)    (* pc.printout(text[, color]) *)
| Print (text : string)                          (* print(text) *)
| New (args : Namespace)                         (* Osintgram(...) *)
| Invoke (f : action)                            (* a registry callable is called *)
| Call (m : method)                              (* api.m() *)
| SetWriteFile (flag : bool)                     (* api.set_write_file(flag) *)
| SetJsonDump (flag : bool).                     (* api.set_json_dump(flag) *)

Definition is_Invoke (ev : event) : bool :=
  match ev with Invoke _ => true | _ => false end.

Definition is_collaborator_event (ev : event) : bool :=
  match ev with
  | New _ | Call _ | SetWriteFile _ | SetJsonDump _ => true
  | _ => false
  end.

Definition is_error_report (ev : event) : bool :=
  match ev with
  | Printout text (Some RED) => String.prefix "Error: " text
  | _ => false
  end.

Definition count_events (p : event -> bool) (t : list event) : nat :=
  length (filter (fun ev => p ev = true) t).

(** Modelled from the spec: the [Osintgram] class is imported, its code is
    not part of [main.py].  The spec gives the instance two mutable session
    flags, write-to-file and JSON-export, next to the state this layer never
    inspects ([remote]: the target, the network session, the cache). *)
Record Osintgram (remote : Type) := {
  write_file : bool;
  json_dump : bool;
  rest : remote
}.
Arguments write_file {remote} _.
Arguments json_dump {remote} _.
Arguments rest {remote} _.

(** Modelled from the spec: [set_write_file(flag)] and [set_json_dump(flag)]
    are absent with the class; the spec says that they set the flag they
    name, and nothing else about them. *)
Definition Osintgram_set_write_file {remote} (flag : bool) (a : Osintgram remote)
  : Osintgram remote :=
  {| write_file := flag; json_dump := json_dump a; rest := rest a |}.

Definition Osintgram_set_json_dump {remote} (flag : bool) (a : Osintgram remote)
  : Osintgram remote :=
  {| write_file := write_file a; json_dump := flag; rest := rest a |}.

(** The state a run threads through: the collaborator, what has happened so
    far, whether [signal.signal(SIGINT, signal_handler)] was run, and after
    how many further operations SIGINT arrives (if it does). *)
Record world (remote : Type) := {
  api : Osintgram remote;
  trace : list event;
  handler_installed : bool;
  sigint_after : option nat
}.
Arguments api {remote} _.
Arguments trace {remote} _.
Arguments handler_installed {remote} _.
Arguments sigint_after {remote} _.

(** ** A small concrete collaborator, for worked examples *)

(** It counts the calls it receives; [get_addrs] fails with an ordinary
    exception, [get_followers] leaves through [sys.exit(3)], the two e-mail
    methods return two items and none. *)
Definition demo_init (args : Namespace) (a : Osintgram nat)
  : outcome unit * Osintgram nat :=
  (Ok tt, {| write_file := args_file args; json_dump := args_json args; rest := 0 |}).

Definition demo_method (m : method) (a : Osintgram nat)
  : outcome (list string) * Osintgram nat :=
  let a' := {| write_file := write_file a; json_dump := json_dump a;
               rest := S (rest a) |} in
  match m with
  | get_addrs => (Raise (ExceptionOf "ConnectionError" "network unreachable"), a')
  | get_followers => (Raise (SystemExit (Some 3%Z)), a')
  | get_fwersemail => (Ok ["ann@example.org"; "bob@example.org"], a')
  | _ => (Ok [], a')
  end.

(** A constructor that fails. *)
Definition demo_init_failing (args : Namespace) (a : Osintgram nat)
  : outcome unit * Osintgram nat :=
  (Raise (ExceptionOf "ConnectionError" "login failed"), a).

Definition demo_art : string := "OSINTGRAM".

Definition demo_world : world nat :=
  {| api := {| write_file := false; json_dump := false; rest := 0 |};
     trace := [];
     handler_installed := false;
     sigint_after := None |}.

Definition demo_args (id : string) (c : option string) : Namespace :=
  {| args_id := id; args_cookies := false; args_json := false;
     args_file := false; args_command := c; args_output := None |}.

(** ** The shell, over an abstract collaborator *)

Section Shell.

Variable remote : Type.

(** The constructor call and the zero-argument methods are left abstract:
    each returns or raises, and may change the collaborator in any way (what
    the imported name [Osintgram] does when called is not visible from
    [main.py]).  A method's value is the sequence of its items as [str]
    renders them (the empty list for [None] and other false values). *)
Variable Osintgram_init :
  Namespace -> Osintgram remote -> outcome unit * Osintgram remote.
Variable api_method :
  method -> Osintgram remote -> outcome (list string) * Osintgram remote.

(** [artwork.ascii_art], a constant of a module that is not in [main.py]. *)
Variable ascii_art : string.

(** *** The monad *)

Definition M (A : Type) : Type := world remote -> outcome A * world remote.

Definition ret {A} (a : A) : M A := fun w => (Ok a, w).

Definition bind {A B} (m : M A) (k : A -> M B) : M B := fun w =>
  match m w with
  | (Ok a, w') => k a w'
  | (Raise e, w') => (Raise e, w')
  | (Blocked, w') => (Blocked, w')
  end.

Definition raise {A} (e : pyexc) : M A := fun w => (Raise e, w).

Definition blocked {A} : M A := fun w => (Blocked, w).

Notation "x <- c1 ;; c2" := (bind c1 (fun x => c2))
  (at level 100, c1 at next level, c2 at level 200, right associativity).
Notation "e1 ;; e2" := (bind e1 (fun _ => e2))
  (at level 100, e2 at level 200, right associativity).

(** [try: body / except Exception as e: handler e]. *)
Definition try_except_Exception (body : M unit) (handler : pyexc -> M unit) : M unit :=
  fun w =>
    match body w with
    | (Raise e, w') => if is_Exception e then handler e w' else (Raise e, w')
    | r => r
    end.

(** [for x in l: body x]. *)
Fixpoint for_ {A} (l : list A) (body : A -> M unit) : M unit :=
  match l with
  | [] => ret tt
  | x :: l' => body x ;; for_ l' body
  end.

Definition emit (ev : event) : M unit := fun w =>
  (Ok tt, {| api := api w; trace := trace w ++ [ev];
             handler_installed := handler_installed w;
             sigint_after := sigint_after w |}).

Definition on_api {A} (f : Osintgram remote -> outcome A * Osintgram remote) : M A := fun w =>
  let '(r, a) := f (api w) in
  (r, {| api := a; trace := trace w;
         handler_installed := handler_installed w;
         sigint_after := sigint_after w |}).

Definition set_sigint (o : option nat) (w : world remote) : world remote :=
  {| api := api w; trace := trace w;
     handler_installed := handler_installed w; sigint_after := o |}.

(** *** The interrupt signal *)

Definition farewell : event := Printout (nl +:+ "Goodbye!" +:+ nl) (Some RED).

(** [signal_handler(sig, frame)]. *)
Definition signal_handler : M unit :=
  emit farewell ;; raise (SystemExit (Some 0%Z)).

(** [signal.signal(signal.SIGINT, signal_handler)]. *)
Definition install_handler : M unit := fun w =>
  (Ok tt, {| api := api w; trace := trace w;
             handler_installed := true; sigint_after := sigint_after w |}).

(** The signal is delivered between two operations of this module: when
    its countdown is over the handler runs in place of the next operation
    (without a handler, Python raises [KeyboardInterrupt] there).  A call
    into the collaborator counts as one operation. *)
Definition deliver_sigint : M unit := fun w =>
  match sigint_after w with
  | None => (Ok tt, w)
  | Some (S k) => (Ok tt, set_sigint (Some k) w)
  | Some O =>
      (if handler_installed w then signal_handler
       else raise (BaseOnly "KeyboardInterrupt")) (set_sigint None w)
  end.

Definition interruptible {A} (m : M A) : M A := deliver_sigint ;; m.

(** *** Operations *)

(** [pc.printout(text, color)]. *)
Definition printout (text : string) (c : option color) : M unit :=
  interruptible (emit (Printout text c)).

(** [print(text)]. *)
Definition print (text : string) : M unit :=
  interruptible (emit (Print text)).

(** [sys.exit(code)]. *)
Definition sys_exit (code : option Z) : M unit :=
  interruptible (raise (SystemExit code)).

(** [input()]: the next terminal event, if there is one. *)
Definition input (ev : option input_event) : M string :=
  interruptible
    match ev with
    | Some (Line text) => ret text
    | Some EOF => raise (ExceptionOf "EOFError" "EOF when reading a line")
    | None => blocked
    end.

(** [Osintgram(args.id, args.file, args.json, args.command, args.output,
    args.cookies)]. *)
Definition Osintgram_new (args : Namespace) : M unit :=
  interruptible (emit (New args) ;; on_api (Osintgram_init args)).

(** [api.m()]. *)
Definition api_call (m : method) : M (list string) :=
  interruptible (emit (Call m) ;; on_api (api_method m)).

(** [api.set_write_file(flag)]. *)
Definition set_write_file (flag : bool) : M unit :=
  interruptible
    (emit (SetWriteFile flag) ;;
     on_api (fun a => (Ok tt, Osintgram_set_write_file flag a))).

(** [api.set_json_dump(flag)]. *)
Definition set_json_dump (flag : bool) : M unit :=
  interruptible
    (emit (SetJsonDump flag) ;;
     on_api (fun a => (Ok tt, Osintgram_set_json_dump flag a))).

(** *** The functions of [main.py] *)

Definition instructions : list string :=
  [ "Type 'list' to show all allowed commands";
    "Type 'FILE=y' to save results to files (default is disabled)";
    "Type 'FILE=n' to disable saving to files";
    "Type 'JSON=y' to export results as JSON files (default is disabled)";
    "Type 'JSON=n' to disable exporting to files" ].

Definition print_logo : M unit :=
  printout ascii_art (Some YELLOW) ;;
  printout (nl +:+ "Version 1.1 - Developed by Giuseppe Criscione" +:+ nl +:+ nl)
           (Some YELLOW) ;;
  for_ instructions (fun line => printout (line +:+ nl) None).

Definition print_commands : M unit :=
  for_ command_list
    (fun entry => printout (entry.1 +:+ tab +:+ tab) None ;; print entry.2).

Definition header (title : string) : event :=
  Printout (nl +:+ "[+] " +:+ title +:+ ":" +:+ nl) (Some GREEN).

Definition no_data : event :=
  Printout ("[-] No data found." +:+ nl) (Some RED).

Definition bullet (item : string) : event :=
  Printout ("  - " +:+ item +:+ nl) (Some CYAN).

Definition print_full_data (data : list string) (title : string) : M unit :=
  printout (nl +:+ "[+] " +:+ title +:+ ":" +:+ nl) (Some GREEN) ;;
  match data with
  | [] => printout ("[-] No data found." +:+ nl) (Some RED)
  | _ => for_ data (fun item => printout ("  - " +:+ item +:+ nl) (Some CYAN))
  end.

(** The body of each registry callable. *)
Definition call_action (f : action) : M unit :=
  match f with
  | print_commands_fn => print_commands
  | sys_exit_fn => sys_exit None
  | bound m => _ <- api_call m ;; ret tt
  | full_data m title => data <- api_call m ;; print_full_data data title
  end.

(** A call [f()] of a callable fetched from [commands]; the [Invoke] event
    marks the call in the trace. *)
Definition invoke (f : action) : M unit := emit (Invoke f) ;; call_action f.

Definition prompt : event := Printout "Run a command: " (Some YELLOW).

Definition unknown_command : event := Printout ("Unknown command" +:+ nl) (Some RED).

Definition error_report (e : pyexc) : event :=
  Printout ("Error: " +:+ str_exc e +:+ nl) (Some RED).

(** The [if]/[elif] chain of the loop, on the stripped line. *)
Definition dispatch (cmd : string) : M unit :=
  if String.eqb cmd "" then ret tt
  else match commands !! cmd with
       | Some f => invoke f
       | None =>
           if String.eqb cmd "FILE=y" then set_write_file true
           else if String.eqb cmd "FILE=n" then set_write_file false
           else if String.eqb cmd "JSON=y" then set_json_dump true
           else if String.eqb cmd "JSON=n" then set_json_dump false
           else printout ("Unknown command" +:+ nl) (Some RED)
       end.

(** The suite of the [try] statement. *)
Definition loop_body (ev : option input_event) : M unit :=
  printout "Run a command: " (Some YELLOW) ;;
  line <- input ev ;;
  dispatch (strip line).

(** The suite of [except Exception as e]. *)
Definition report_error (e : pyexc) : M unit :=
  printout ("Error: " +:+ str_exc e +:+ nl) (Some RED).

(** One turn of [while True]: the [try] statement. *)
Definition loop_iteration (ev : option input_event) : M unit :=
  try_except_Exception (loop_body ev) report_error.

(** [while True: ...], one turn per terminal event; after the last one the
    loop is blocked in [input()]. *)
Fixpoint interactive_loop (stdin : list input_event) : M unit :=
  match stdin with
  | [] => loop_iteration None
  | ev :: stdin' => loop_iteration (Some ev) ;; interactive_loop stdin'
  end.

(** The [if args.command:] branch. *)
Definition single_command (c : string) : M unit :=
  match commands !! c with
  | Some f => invoke f
  | None => printout ("Unknown command: " +:+ c +:+ nl) (Some RED)
  end.

(** [main()], from the parsed arguments on. *)
Definition main (args : Namespace) (stdin : list input_event) : M unit :=
  install_handler ;;
  (if negb (isalnum (args_id args)) then
     printout ("Invalid Instagram username. It should be alphanumeric." +:+ nl)
              (Some RED) ;;
     sys_exit (Some 1%Z)
   else ret tt) ;;
  Osintgram_new args ;;
  if truthy (args_command args) then
    single_command (default "" (args_command args))
  else
    print_logo ;;
    interactive_loop stdin.

(** *** Vocabulary of the statements *)

(** The world after the collaborator became [a] and [evs] were appended. *)
Definition upd (a : Osintgram remote) (evs : list event) (w : world remote)
  : world remote :=
  {| api := a; trace := trace w ++ evs;
     handler_installed := handler_installed w;
     sigint_after := sigint_after w |}.

(** The world after [evs] were appended. *)
Definition record (evs : list event) (w : world remote) : world remote :=
  upd (api w) evs w.

(** The world once the interrupt handler is installed. *)
Definition installed (w : world remote) : world remote :=
  {| api := api w; trace := trace w;
     handler_installed := true; sigint_after := sigint_after w |}.

(** A computation is well behaved for a class [P] of events when every run
    of it only appends events of [P] to the trace, keeps the handler
    installed, invents no interrupt, and, if a pending interrupt is consumed
    while the handler is installed, ends in [SystemExit(0)] straight after
    the farewell. *)
Definition behaved (P : event -> Prop) {A} (m : M A) : Prop :=
  forall w r w', m w = (r, w') ->
    (exists evs, trace w' = trace w ++ evs /\ Forall P evs)
    /\ (handler_installed w = true -> handler_installed w' = true)
    /\ (sigint_after w = None -> sigint_after w' = None)
    /\ (handler_installed w = true -> sigint_after w <> None ->
        sigint_after w' = None ->
        r = Raise (SystemExit (Some 0%Z)) /\ last (trace w') = Some farewell).

Definition invalid_username : event :=
  Printout ("Invalid Instagram username. It should be alphanumeric." +:+ nl) (Some RED).

Definition unknown_name (c : string) : event :=
  Printout ("Unknown command: " +:+ c +:+ nl) (Some RED).

(** The events a registry callable can cause. *)
Inductive action_event : event -> Prop :=
| ae_farewell : action_event farewell
| ae_plain text : action_event (Printout text None)
| ae_print text : action_event (Print text)
| ae_call m : action_event (Call m)
| ae_header title : action_event (header title)
| ae_no_data : action_event no_data
| ae_bullet item : action_event (bullet item).

(** The events of the [try] suite of one turn. *)
Inductive body_event : event -> Prop :=
| be_action ev : action_event ev -> body_event ev
| be_prompt : body_event prompt
| be_invoke f : body_event (Invoke f)
| be_write flag : body_event (SetWriteFile flag)
| be_json flag : body_event (SetJsonDump flag)
| be_unknown : body_event unknown_command.

(** The events of one turn, and of the loop. *)
Inductive loop_event : event -> Prop :=
| le_body ev : body_event ev -> loop_event ev
| le_report e : loop_event (error_report e).

(** [e] was raised by the callable of the registered command typed as [ev],
    leaving the world [w']. *)
Definition raised_by_command (ev : option input_event) (e : pyexc) (w' : world remote)
  : Prop :=
  exists l f wa,
    ev = Some (Line l) /\ commands !! strip l = Some f
    /\ call_action f wa = (Raise e, w').

(** The same for one of the lines of [stdin]. *)
Definition raised_by_some_command (stdin : list input_event) (e : pyexc)
    (w' : world remote) : Prop :=
  exists pre ev post, stdin = pre ++ ev :: post /\ raised_by_command (Some ev) e w'.

Definition is_bullet (ev : event) : bool :=
  match ev with
  | Printout text (Some CYAN) => String.prefix "  - " text
  | _ => false
  end.

(** *** Vocabulary of the further properties *)

(** The exception [input()] raises at the end of the input. *)
Definition eof_error : pyexc := ExceptionOf "EOFError" "EOF when reading a line".

(** What [print_logo] prints. *)
Definition logo_events : list event :=
  Printout ascii_art (Some YELLOW)
  :: Printout (nl +:+ "Version 1.1 - Developed by Giuseppe Criscione" +:+ nl +:+ nl)
       (Some YELLOW)
  :: map (fun line => Printout (line +:+ nl) None) instructions.

(** What [print_commands] prints for one entry of the help table. *)
Definition help_row (entry : string * string) : list event :=
  [Printout (entry.1 +:+ tab +:+ tab) None; Print entry.2].

Definition is_prompt (ev : event) : bool :=
  match ev with
  | Printout text (Some YELLOW) => String.eqb text "Run a command: "
  | _ => false
  end.

Definition is_Call (ev : event) : bool :=
  match ev with Call _ => true | _ => false end.

(** ** General facts *)

(** No key is written twice in the literal, so the dictionary holds exactly
    its entries. *)
Lemma commands_items_NoDup : NoDup commands_items.*1.
Proof. by apply (bool_decide_unpack _). Qed.

Lemma commands_lookup (name : string) (f : action) :
  commands !! name = Some f <-> (name, f) ∈ commands_items.
Proof.
  unfold commands. symmetry. apply elem_of_list_to_map, commands_items_NoDup.
Qed.

Lemma commands_size : size commands = 27.
Proof. reflexivity. Qed.

Lemma count_events_app (p : event -> bool) (t1 t2 : list event) :
  count_events p (t1 ++ t2) = count_events p t1 + count_events p t2.
Proof. unfold count_events. by rewrite filter_app, length_app. Qed.

Lemma count_events_none (p : event -> bool) (t : list event) :
  Forall (fun ev => p ev = false) t -> count_events p t = 0.
Proof.
  unfold count_events. induction 1 as [|ev t Hev _ IH]; [done|].
  rewrite filter_cons. destruct (decide (p ev = true)) as [Heq|_]; [congruence|done].
Qed.

Lemma count_events_cons (p : event -> bool) (ev : event) (t : list event) :
  count_events p (ev :: t) = (if p ev then 1 else 0) + count_events p t.
Proof.
  unfold count_events. rewrite filter_cons.
  destruct (decide (p ev = true)) as [->|Hne]; [done|].
  by destruct (p ev).
Qed.

(** *** The monad's combinators preserve good behaviour *)

Ltac four := split; [|split; [|split]].

Ltac same_trace := exists []; split; [by rewrite app_nil_r|by constructor].

Section Behaved.

Variable P : event -> Prop.

Lemma behaved_ret {A} (a : A) : behaved P (ret a).
Proof. intros w r w' [= <- <-]. four; [same_trace|done..]. Qed.

Lemma behaved_raise {A} (e : pyexc) : behaved P (@raise A e).
Proof. intros w r w' [= <- <-]. four; [same_trace|done..]. Qed.

Lemma behaved_blocked {A} : behaved P (@blocked A).
Proof. intros w r w' [= <- <-]. four; [same_trace|done..]. Qed.

Lemma behaved_emit (ev : event) : P ev -> behaved P (emit ev).
Proof.
  intros Hev w r w' [= <- <-]. cbn. four; [|done..].
  exists [ev]. split; [done|]. by constructor.
Qed.

Lemma behaved_on_api {A} (f : Osintgram remote -> outcome A * Osintgram remote) :
  behaved P (on_api f).
Proof.
  intros w r w'. unfold on_api. destruct (f (api w)) as [r0 a].
  intros [= <- <-]. cbn. four; [same_trace|done..].
Qed.

Lemma behaved_bind {A B} (m : M A) (k : A -> M B) :
  behaved P m -> (forall a, behaved P (k a)) -> behaved P (bind m k).
Proof.
  intros Hm Hk w r w'. unfold bind.
  destruct (m w) as [r1 w1] eqn:E1.
  destruct (Hm _ _ _ E1) as ((evs1 & Ht1 & HP1) & Hh1 & Hq1 & Hd1).
  destruct r1 as [a|e|];
    [|intros [= <- <-]; four; eauto;
      intros Hi Hs Hn; destruct (Hd1 Hi Hs Hn) as [[= ->] ?]; done..].
  intros E2.
  destruct (Hk a _ _ _ E2) as ((evs2 & Ht2 & HP2) & Hh2 & Hq2 & Hd2).
  four; [|by auto..|].
  - exists (evs1 ++ evs2). rewrite Ht2, Ht1, app_assoc. split; [done|].
    by apply Forall_app.
  - intros Hi Hs Hn. destruct (sigint_after w1) as [k1|] eqn:Es.
    + apply Hd2; [auto|congruence|done].
    + destruct (Hd1 Hi Hs eq_refl) as [? _]. discriminate.
Qed.

Lemma behaved_try (body : M unit) (handler : pyexc -> M unit) :
  behaved P body -> (forall e, behaved P (handler e)) ->
  behaved P (try_except_Exception body handler).
Proof.
  intros Hb Hh w r w'. unfold try_except_Exception.
  destruct (body w) as [r1 w1] eqn:E1.
  destruct (Hb _ _ _ E1) as ((evs1 & Ht1 & HP1) & Hh1 & Hq1 & Hd1).
  destruct r1 as [a|e|]; try (intros [= <- <-]; four; by eauto).
  destruct (is_Exception e) eqn:Ee; [|intros [= <- <-]; four; by eauto].
  intros E2.
  destruct (Hh e _ _ _ E2) as ((evs2 & Ht2 & HP2) & Hh2 & Hq2 & Hd2).
  four; [|by auto..|].
  - exists (evs1 ++ evs2). rewrite Ht2, Ht1, app_assoc. split; [done|].
    by apply Forall_app.
  - intros Hi Hs Hn. apply Hd2; [auto| |done].
    intros Hn1. destruct (Hd1 Hi Hs Hn1) as [[= ->] _]. discriminate.
Qed.

Lemma behaved_for {A} (l : list A) (body : A -> M unit) :
  (forall x, behaved P (body x)) -> behaved P (for_ l body).
Proof.
  intros Hb. induction l as [|x l IH]; cbn [for_].
  - apply behaved_ret.
  - apply behaved_bind; [apply Hb|intros _; apply IH].
Qed.

Hypothesis P_farewell : P farewell.

Lemma behaved_deliver : behaved P deliver_sigint.
Proof.
  intros w r w'. unfold deliver_sigint.
  destruct (sigint_after w) as [[|k]|] eqn:Es.
  - destruct (handler_installed w) eqn:Eh; intros [= <- <-]; cbn.
    + four; [|done..|].
      * exists [farewell]. split; [done|]. by constructor.
      * intros _ _ _. by rewrite last_snoc.
    + four; [same_trace|congruence|done|congruence].
  - intros [= <- <-]. cbn. four; [same_trace|done..].
  - intros [= <- <-]. four; [same_trace|done..].
Qed.

Lemma behaved_interruptible {A} (m : M A) :
  behaved P m -> behaved P (interruptible m).
Proof. intros Hm. apply behaved_bind; [apply behaved_deliver|done]. Qed.

Lemma behaved_printout (text : string) (c : option color) :
  P (Printout text c) -> behaved P (printout text c).
Proof. intros H. by apply behaved_interruptible, behaved_emit. Qed.

Lemma behaved_print (text : string) : P (Print text) -> behaved P (print text).
Proof. intros H. by apply behaved_interruptible, behaved_emit. Qed.

Lemma behaved_sys_exit (code : option Z) : behaved P (sys_exit code).
Proof. apply behaved_interruptible, behaved_raise. Qed.

Lemma behaved_input (ev : option input_event) : behaved P (input ev).
Proof.
  apply behaved_interruptible. destruct ev as [[text|]|].
  - apply behaved_ret.
  - apply behaved_raise.
  - apply behaved_blocked.
Qed.

Lemma behaved_api_call (m : method) : P (Call m) -> behaved P (api_call m).
Proof.
  intros H. apply behaved_interruptible, behaved_bind.
  - by apply behaved_emit.
  - intros _. apply behaved_on_api.
Qed.

End Behaved.

(** *** The functions of [main.py] are well behaved *)

Lemma behaved_weaken (P Q : event -> Prop) {A} (m : M A) :
  (forall ev, P ev -> Q ev) -> behaved P m -> behaved Q m.
Proof.
  intros HPQ Hm w r w' E.
  destruct (Hm _ _ _ E) as ((evs & Ht & HP) & Hh & Hq & Hd).
  four; [|done..]. exists evs. split; [done|].
  eapply Forall_impl; eauto.
Qed.

Lemma print_commands_behaved : behaved action_event print_commands.
Proof.
  apply behaved_for. intros [cmd desc]. apply behaved_bind.
  - apply behaved_printout; constructor.
  - intros _. apply behaved_print; constructor.
Qed.

Lemma print_full_data_behaved (data : list string) (title : string) :
  behaved action_event (print_full_data data title).
Proof.
  apply behaved_bind.
  - apply behaved_printout; [constructor|apply ae_header].
  - intros _. destruct data as [|item data].
    + apply behaved_printout; [constructor|apply ae_no_data].
    + apply behaved_for. intros x.
      apply behaved_printout; [constructor|apply ae_bullet].
Qed.

Lemma call_action_behaved (f : action) : behaved action_event (call_action f).
Proof.
  destruct f as [| |m|m title]; cbn [call_action].
  - apply print_commands_behaved.
  - apply behaved_sys_exit. constructor.
  - apply behaved_bind.
    + apply behaved_api_call; constructor.
    + intros _. apply behaved_ret.
  - apply behaved_bind.
    + apply behaved_api_call; constructor.
    + intros data. apply print_full_data_behaved.
Qed.

Lemma invoke_behaved (f : action) : behaved body_event (invoke f).
Proof.
  apply behaved_bind.
  - apply behaved_emit, be_invoke.
  - intros _. eapply behaved_weaken; [|apply call_action_behaved].
    by constructor.
Qed.

Lemma set_write_file_behaved (flag : bool) : behaved body_event (set_write_file flag).
Proof.
  apply behaved_interruptible; [do 2 constructor|].
  apply behaved_bind; [apply behaved_emit, be_write|].
  intros _. apply behaved_on_api.
Qed.

Lemma set_json_dump_behaved (flag : bool) : behaved body_event (set_json_dump flag).
Proof.
  apply behaved_interruptible; [do 2 constructor|].
  apply behaved_bind; [apply behaved_emit, be_json|].
  intros _. apply behaved_on_api.
Qed.

Lemma dispatch_behaved (cmd : string) : behaved body_event (dispatch cmd).
Proof.
  unfold dispatch. destruct (String.eqb cmd ""); [apply behaved_ret|].
  destruct (commands !! cmd) as [f|]; [apply invoke_behaved|].
  repeat match goal with
         | |- behaved _ (if ?b then _ else _) => destruct b
         end;
    auto using set_write_file_behaved, set_json_dump_behaved.
  apply behaved_printout; [do 2 constructor|apply be_unknown].
Qed.

Lemma loop_body_behaved (ev : option input_event) : behaved body_event (loop_body ev).
Proof.
  apply behaved_bind.
  - apply behaved_printout; [do 2 constructor|apply be_prompt].
  - intros _. apply behaved_bind.
    + apply behaved_input. do 2 constructor.
    + intros line. apply dispatch_behaved.
Qed.

Lemma report_error_behaved (e : pyexc) : behaved loop_event (report_error e).
Proof. apply behaved_printout; [do 3 constructor|apply le_report]. Qed.

Lemma loop_iteration_behaved (ev : option input_event) :
  behaved loop_event (loop_iteration ev).
Proof.
  apply behaved_try.
  - eapply behaved_weaken; [|apply loop_body_behaved]. by constructor.
  - apply report_error_behaved.
Qed.

Lemma interactive_loop_behaved (stdin : list input_event) :
  behaved loop_event (interactive_loop stdin).
Proof.
  induction stdin as [|ev stdin IH]; cbn [interactive_loop].
  - apply loop_iteration_behaved.
  - apply behaved_bind; [apply loop_iteration_behaved|by intros _].
Qed.

Lemma single_command_behaved (c : string) :
  behaved (fun ev => body_event ev
                     \/ ev = Printout ("Unknown command: " +:+ c +:+ nl) (Some RED))
          (single_command c).
Proof.
  unfold single_command. destruct (commands !! c) as [f|].
  - eapply behaved_weaken; [|apply invoke_behaved]. by left.
  - apply behaved_printout; [left; do 2 constructor|by right].
Qed.

Lemma print_logo_behaved : behaved (fun _ => True) print_logo.
Proof.
  apply behaved_bind; [by apply behaved_printout|intros _].
  apply behaved_bind; [by apply behaved_printout|intros _].
  apply behaved_for. intros line. by apply behaved_printout.
Qed.

(** Everything after the handler is installed. *)
Lemma main_behaved (args : Namespace) (stdin : list input_event) (w : world remote) :
  exists m : M unit,
    main args stdin w = m (installed w) /\ behaved (fun _ => True) m.
Proof.
  eexists. split; [reflexivity|].
  apply behaved_bind.
  { destruct (negb (isalnum (args_id args))); [|apply behaved_ret].
    apply behaved_bind; [by apply behaved_printout|intros _].
    by apply behaved_sys_exit. }
  intros _. apply behaved_bind.
  { apply behaved_interruptible; [done|].
    apply behaved_bind; [by apply behaved_emit|intros _; apply behaved_on_api]. }
  intros _. destruct (truthy (args_command args)).
  - eapply behaved_weaken; [|apply single_command_behaved]. done.
  - apply behaved_bind; [apply print_logo_behaved|intros _].
    eapply behaved_weaken; [|apply interactive_loop_behaved]. done.
Qed.

(** *** What the event classes exclude *)


Lemma action_event_not_report (ev : event) :
  action_event ev -> is_error_report ev = false.
Proof. by destruct 1. Qed.


Lemma body_event_not_report (ev : event) :
  body_event ev -> is_error_report ev = false.
Proof. destruct 1; [by apply action_event_not_report|done..]. Qed.

(** *** Runs without an interrupt *)

Lemma upd_upd (a1 a2 : Osintgram remote) (evs1 evs2 : list event) (w : world remote) :
  upd a2 evs2 (upd a1 evs1 w) = upd a2 (evs1 ++ evs2) w.
Proof. unfold upd. cbn. by rewrite app_assoc. Qed.

Lemma record_record (evs1 evs2 : list event) (w : world remote) :
  record evs2 (record evs1 w) = record (evs1 ++ evs2) w.
Proof. apply upd_upd. Qed.

Lemma upd_record (a : Osintgram remote) (evs1 evs2 : list event) (w : world remote) :
  upd a evs2 (record evs1 w) = upd a (evs1 ++ evs2) w.
Proof. apply upd_upd. Qed.

Lemma interruptible_quiet {A} (m : M A) (w : world remote) :
  sigint_after w = None -> interruptible m w = m w.
Proof. intros Hq. unfold interruptible, bind, deliver_sigint. by rewrite Hq. Qed.

Lemma printout_quiet (text : string) (c : option color) (w : world remote) :
  sigint_after w = None -> printout text c w = (Ok tt, record [Printout text c] w).
Proof. intros Hq. unfold printout. by rewrite interruptible_quiet. Qed.

Lemma invoke_unfold (f : action) (w : world remote) :
  invoke f w = call_action f (record [Invoke f] w).
Proof. reflexivity. Qed.

Lemma set_write_file_quiet (flag : bool) (w : world remote) :
  sigint_after w = None ->
  set_write_file flag w
  = (Ok tt, upd (Osintgram_set_write_file flag (api w)) [SetWriteFile flag] w).
Proof. intros Hq. unfold set_write_file. by rewrite interruptible_quiet. Qed.

Lemma set_json_dump_quiet (flag : bool) (w : world remote) :
  sigint_after w = None ->
  set_json_dump flag w
  = (Ok tt, upd (Osintgram_set_json_dump flag (api w)) [SetJsonDump flag] w).
Proof. intros Hq. unfold set_json_dump. by rewrite interruptible_quiet. Qed.

Lemma loop_body_quiet (l : string) (w : world remote) :
  sigint_after w = None ->
  loop_body (Some (Line l)) w = dispatch (strip l) (record [prompt] w).
Proof.
  intros Hq. unfold loop_body, bind at 1.
  rewrite printout_quiet by done. unfold bind, input.
  by rewrite interruptible_quiet.
Qed.

Lemma loop_iteration_quiet (l : string) (w : world remote) :
  sigint_after w = None ->
  loop_iteration (Some (Line l)) w
  = try_except_Exception (dispatch (strip l)) report_error (record [prompt] w).
Proof.
  intros Hq. unfold loop_iteration, try_except_Exception.
  by rewrite loop_body_quiet.
Qed.

Lemma loop_iteration_quiet_blocked (w : world remote) :
  sigint_after w = None -> loop_iteration None w = (Blocked, record [prompt] w).
Proof.
  intros Hq. unfold loop_iteration, try_except_Exception, loop_body, bind at 1.
  rewrite printout_quiet by done. unfold bind, input.
  by rewrite interruptible_quiet.
Qed.

Lemma commands_not_empty : commands !! "" = None.
Proof. reflexivity. Qed.

Lemma dispatch_registered (cmd : string) (f : action) :
  commands !! cmd = Some f -> dispatch cmd = invoke f.
Proof.
  intros Hf. unfold dispatch. destruct (String.eqb_spec cmd "") as [->|_].
  - by rewrite commands_not_empty in Hf.
  - by rewrite Hf.
Qed.

Lemma dispatch_unregistered (cmd : string) :
  cmd <> "" -> commands !! cmd = None ->
  cmd <> "FILE=y" -> cmd <> "FILE=n" -> cmd <> "JSON=y" -> cmd <> "JSON=n" ->
  dispatch cmd = printout ("Unknown command" +:+ nl) (Some RED).
Proof.
  intros H0 Hc H1 H2 H3 H4. unfold dispatch. rewrite Hc.
  by repeat match goal with
            | |- context [String.eqb cmd ?s] => destruct (String.eqb_spec cmd s)
            end.
Qed.

Lemma loop_iteration_after_prompt (ev : option input_event) (w : world remote) :
  sigint_after w = None ->
  loop_iteration ev w
  = try_except_Exception (line <- input ev ;; dispatch (strip line)) report_error
      (record [prompt] w).
Proof.
  intros Hq. unfold loop_iteration, try_except_Exception, loop_body.
  unfold bind at 1. by rewrite printout_quiet.
Qed.

(** The trace of a quiet loop starts with the prompt. *)
Lemma interactive_loop_prompts (stdin : list input_event) (w w' : world remote)
    (r : outcome unit) :
  sigint_after w = None -> interactive_loop stdin w = (r, w') ->
  exists evs, trace w' = trace w ++ prompt :: evs.
Proof.
  intros Hq.
  assert (Hturn : forall ev r1 w1, loop_iteration ev w = (r1, w1) ->
                   exists evs, trace w1 = trace w ++ prompt :: evs).
  { intros ev r1 w1. rewrite loop_iteration_after_prompt by done. intros E.
    assert (Hb : behaved loop_event
                   (try_except_Exception (line <- input ev ;; dispatch (strip line))
                      report_error)).
    { apply behaved_try; [|apply report_error_behaved].
      apply behaved_bind; [apply behaved_input; do 3 constructor|].
      intros line. eapply behaved_weaken; [|apply dispatch_behaved]. by constructor. }
    destruct (Hb _ _ _ E) as ((evs & Ht & _) & _). cbn in Ht.
    exists evs. by rewrite Ht, <- app_assoc. }
  destruct stdin as [|ev stdin]; cbn [interactive_loop]; [apply Hturn|].
  unfold bind. destruct (loop_iteration (Some ev) w) as [r1 w1] eqn:E1.
  destruct (Hturn _ _ _ E1) as (evs1 & Ht1).
  destruct r1 as [[]|e|]; [|intros [= _ <-]; eauto..].
  intros E2.
  destruct (interactive_loop_behaved stdin _ _ _ E2) as ((evs2 & Ht2 & _) & _).
  exists (evs1 ++ evs2). by rewrite Ht2, Ht1, <- app_assoc.
Qed.

(** ** The claims *)


(** C2.  When the callable resolved from the registry raises an instance of
    [Exception], the turn catches it, prints [Error: ] followed by the
    exception's text and a newline, and returns; the loop goes on with the
    rest of the input. *)
Theorem C2_exception_reported (l : string) (f : action) (e : pyexc)
    (w w1 : world remote) :
  sigint_after w = None ->
  commands !! strip l = Some f ->
  invoke f (record [prompt] w) = (Raise e, w1) ->
  is_Exception e = true ->
  loop_iteration (Some (Line l)) w = (Ok tt, record [error_report e] w1)
  /\ error_report e = Printout ("Error: " +:+ str_exc e +:+ nl) (Some RED)
  /\ forall stdin, interactive_loop (Line l :: stdin) w
                   = interactive_loop stdin (record [error_report e] w1).
Proof.
  intros Hq Hf Hr He.
  assert (Hq1 : sigint_after w1 = None).
  { destruct (invoke_behaved f _ _ _ Hr) as (_ & _ & Hq1 & _). by apply Hq1. }
  assert (Hturn : loop_iteration (Some (Line l)) w = (Ok tt, record [error_report e] w1)).
  { rewrite loop_iteration_quiet by done. rewrite (dispatch_registered _ _ Hf).
    unfold try_except_Exception. rewrite Hr, He.
    unfold report_error. by rewrite printout_quiet. }
  split; [done|]. split; [done|].
  intros stdin. cbn [interactive_loop]. unfold bind. by rewrite Hturn.
Qed.

(** C3.  A line whose stripped text is not empty, not a key of the registry
    and not one of [FILE=y], [FILE=n], [JSON=y], [JSON=n] makes the turn
    print the prompt and [Unknown command], nothing else: it returns
    normally, the collaborator is untouched and no callable is invoked, and
    the loop goes on with the rest of the input. *)
Theorem C3_unknown_command (l : string) (w : world remote) :
  sigint_after w = None ->
  strip l <> "" ->
  commands !! strip l = None ->
  strip l ∉ ["FILE=y"; "FILE=n"; "JSON=y"; "JSON=n"] ->
  loop_iteration (Some (Line l)) w = (Ok tt, record [prompt; unknown_command] w)
  /\ api (record [prompt; unknown_command] w) = api w
  /\ count_events is_collaborator_event [prompt; unknown_command] = 0
  /\ count_events is_Invoke [prompt; unknown_command] = 0
  /\ forall stdin, interactive_loop (Line l :: stdin) w
                   = interactive_loop stdin (record [prompt; unknown_command] w).
Proof.
  intros Hq H0 Hc Hd.
  assert (Hturn : loop_iteration (Some (Line l)) w
                  = (Ok tt, record [prompt; unknown_command] w)).
  { rewrite loop_iteration_quiet by done.
    rewrite dispatch_unregistered; try done; try (intros Heq; apply Hd; rewrite Heq; set_solver).
    unfold try_except_Exception. rewrite printout_quiet by done.
    by rewrite record_record. }
  split; [done|]. repeat split.
  intros stdin. cbn [interactive_loop]. unfold bind. by rewrite Hturn.
Qed.

(** C4.  [FILE=y], [FILE=n], [JSON=y] and [JSON=n] are not keys of the
    registry.  A line that strips to one of them makes the turn call the
    matching setter with [True] or [False], which leaves the flag at that
    value.  After [FILE=y] and then [FILE=n] the write-to-file flag is
    false, and a directive entered twice leaves the collaborator as the same
    directive entered once does. *)
Theorem C4_toggle_directives (w : world remote) :
  sigint_after w = None ->
  (commands !! "FILE=y" = None /\ commands !! "FILE=n" = None
   /\ commands !! "JSON=y" = None /\ commands !! "JSON=n" = None)
  /\ (forall l (flag : bool), strip l = (if flag then "FILE=y" else "FILE=n") ->
        loop_iteration (Some (Line l)) w
        = (Ok tt, upd (Osintgram_set_write_file flag (api w))
                      [prompt; SetWriteFile flag] w)
        /\ write_file (Osintgram_set_write_file flag (api w)) = flag)
  /\ (forall l (flag : bool), strip l = (if flag then "JSON=y" else "JSON=n") ->
        loop_iteration (Some (Line l)) w
        = (Ok tt, upd (Osintgram_set_json_dump flag (api w))
                      [prompt; SetJsonDump flag] w)
        /\ json_dump (Osintgram_set_json_dump flag (api w)) = flag)
  /\ (forall l1 l2, strip l1 = "FILE=y" -> strip l2 = "FILE=n" ->
        (interactive_loop [Line l1; Line l2] w).1 = Blocked
        /\ write_file (api (interactive_loop [Line l1; Line l2] w).2) = false)
  /\ (forall d l1 l2, d ∈ ["FILE=y"; "FILE=n"; "JSON=y"; "JSON=n"] ->
        strip l1 = d -> strip l2 = d ->
        api (interactive_loop [Line l1; Line l2] w).2
        = api (interactive_loop [Line l1] w).2).
Proof.
  intros Hq.
  assert (Hfile : forall w0 l (flag : bool), sigint_after w0 = None ->
            strip l = (if flag then "FILE=y" else "FILE=n") ->
            loop_iteration (Some (Line l)) w0
            = (Ok tt, upd (Osintgram_set_write_file flag (api w0))
                          [prompt; SetWriteFile flag] w0)).
  { intros w0 l flag Hq0 Hl. rewrite loop_iteration_quiet by done. rewrite Hl.
    unfold try_except_Exception.
    destruct flag; unfold dispatch; cbn [String.eqb Ascii.eqb Bool.eqb];
      change (commands !! _) with (@None action); cbn [String.eqb Ascii.eqb Bool.eqb];
      rewrite set_write_file_quiet by done; by rewrite upd_record. }
  assert (Hjson : forall w0 l (flag : bool), sigint_after w0 = None ->
            strip l = (if flag then "JSON=y" else "JSON=n") ->
            loop_iteration (Some (Line l)) w0
            = (Ok tt, upd (Osintgram_set_json_dump flag (api w0))
                          [prompt; SetJsonDump flag] w0)).
  { intros w0 l flag Hq0 Hl. rewrite loop_iteration_quiet by done. rewrite Hl.
    unfold try_except_Exception.
    destruct flag; unfold dispatch; cbn [String.eqb Ascii.eqb Bool.eqb];
      change (commands !! _) with (@None action); cbn [String.eqb Ascii.eqb Bool.eqb];
      rewrite set_json_dump_quiet by done; by rewrite upd_record. }
  split; [done|]. split; [by auto|]. split; [by auto|]. split.
  - intros l1 l2 H1 H2. cbn [interactive_loop]. unfold bind.
    rewrite (Hfile w l1 true) by done.
    rewrite (Hfile _ l2 false) by done.
    by rewrite loop_iteration_quiet_blocked.
  - intros d l1 l2 Hd H1 H2. cbn [interactive_loop]. unfold bind.
    rewrite !elem_of_cons, elem_of_nil in Hd.
    destruct Hd as [-> | [-> | [-> | [-> | []]]]].
    + rewrite (Hfile w l1 true) by done. rewrite (Hfile _ l2 true) by done.
      by rewrite !loop_iteration_quiet_blocked.
    + rewrite (Hfile w l1 false) by done. rewrite (Hfile _ l2 false) by done.
      by rewrite !loop_iteration_quiet_blocked.
    + rewrite (Hjson w l1 true) by done. rewrite (Hjson _ l2 true) by done.
      by rewrite !loop_iteration_quiet_blocked.
    + rewrite (Hjson w l1 false) by done. rewrite (Hjson _ l2 false) by done.
      by rewrite !loop_iteration_quiet_blocked.
Qed.

Lemma Osintgram_new_quiet (args : Namespace) (w : world remote) :
  sigint_after w = None ->
  Osintgram_new args w
  = ((Osintgram_init args (api w)).1,
     upd (Osintgram_init args (api w)).2 [New args] w).
Proof.
  intros Hq. unfold Osintgram_new. rewrite interruptible_quiet by done.
  unfold bind, emit, on_api. cbn. by destruct (Osintgram_init args (api w)).
Qed.

(** C5.  When [args.id.isalnum()] is false, [main] prints the error message
    and raises [SystemExit(1)]: the process status is 1, and neither the
    constructor nor any command has run.  When it is true, the next thing
    that happens is the construction of the collaborator.  [abc-123] and
    [abc 123] are not alphanumeric, [abc123] is. *)
Theorem C5_startup_validation (args : Namespace) (stdin : list input_event)
    (w : world remote) :
  sigint_after w = None ->
  (isalnum (args_id args) = false ->
     main args stdin w
     = (Raise (SystemExit (Some 1%Z)), record [invalid_username] (installed w))
     /\ exit_status (main args stdin w).1 = Some 1%Z
     /\ count_events is_collaborator_event [invalid_username] = 0
     /\ count_events is_Invoke [invalid_username] = 0)
  /\ (isalnum (args_id args) = true ->
        exists evs, trace (main args stdin w).2 = trace w ++ New args :: evs)
  /\ isalnum "abc-123" = false /\ isalnum "abc 123" = false
  /\ isalnum "abc123" = true.
Proof.
  intros Hq. split; [|split; [|done]].
  - intros Hid.
    assert (Hmain : main args stdin w
                    = (Raise (SystemExit (Some 1%Z)),
                       record [invalid_username] (installed w))).
    { unfold main, bind at 1. cbn [install_handler]. fold (installed w).
      unfold bind at 1. rewrite Hid. cbn [negb]. unfold bind at 1.
      rewrite printout_quiet by done. unfold sys_exit.
      by rewrite interruptible_quiet. }
    rewrite Hmain. by repeat split.
  - intros Hid. unfold main, bind at 1. cbn [install_handler]. fold (installed w).
    unfold bind at 1. rewrite Hid. cbn [negb ret]. unfold bind at 1.
    rewrite Osintgram_new_quiet by done.
    destruct (Osintgram_init args (api (installed w))) as [r1 a1]. cbn [fst snd].
    destruct r1 as [[]|e|]; [|by exists []..].
    set (rest := if truthy (args_command args) then _ else _).
    destruct (rest (upd a1 [New args] (installed w))) as [r2 w2] eqn:E2.
    assert (Hb : behaved (fun _ => True) rest).
    { subst rest. destruct (truthy (args_command args)).
      - eapply behaved_weaken; [|apply single_command_behaved]. done.
      - apply behaved_bind; [apply print_logo_behaved|intros _].
        eapply behaved_weaken; [|apply interactive_loop_behaved]. done. }
    destruct (Hb _ _ _ E2) as ((evs & Ht & _) & _). cbn in Ht.
    exists evs. cbn [snd]. by rewrite Ht, <- app_assoc.
Qed.

Lemma for_bullets_quiet (data : list string) (w : world remote) :
  sigint_after w = None ->
  for_ data (fun item => printout ("  - " +:+ item +:+ nl) (Some CYAN)) w
  = (Ok tt, record (map bullet data) w).
Proof.
  revert w. induction data as [|item data IH]; intros w Hq; cbn [for_ map].
  - unfold ret, record, upd. destruct w. cbn. by rewrite app_nil_r.
  - unfold bind. rewrite printout_quiet by done. rewrite IH by done.
    by rewrite record_record.
Qed.

Lemma is_bullet_bullet (item : string) : is_bullet (bullet item) = true.
Proof. by destruct item. Qed.

Lemma count_bullets (data : list string) :
  count_events is_bullet (map bullet data) = length data.
Proof.
  induction data as [|item data IH]; [done|].
  cbn [map]. by rewrite count_events_cons, IH, is_bullet_bullet.
Qed.

(** C6.  [print_full_data] prints the header with the title first.  For an
    empty sequence it then prints the no-data notice and no bullet line; for
    a non-empty one it prints one bullet line per item, in the order of the
    sequence, so as many bullet lines as there are items. *)
Theorem C6_print_full_data (title : string) (w : world remote) :
  sigint_after w = None ->
  print_full_data [] title w = (Ok tt, record [header title; no_data] w)
  /\ count_events is_bullet [header title; no_data] = 0
  /\ forall item data,
       print_full_data (item :: data) title w
       = (Ok tt, record (header title :: map bullet (item :: data)) w)
       /\ count_events is_bullet (header title :: map bullet (item :: data))
          = length (item :: data).
Proof.
  intros Hq. split; [|split; [done|]].
  - unfold print_full_data, bind. rewrite printout_quiet by done.
    rewrite printout_quiet by done. by rewrite record_record.
  - intros item data. split.
    + unfold print_full_data, bind. rewrite printout_quiet by done.
      rewrite for_bullets_quiet by done. by rewrite record_record.
    + rewrite count_events_cons. by rewrite count_bullets.
Qed.

Lemma main_past_validation (args : Namespace) (stdin : list input_event)
    (w : world remote) (a1 : Osintgram remote) :
  sigint_after w = None ->
  isalnum (args_id args) = true ->
  Osintgram_init args (api w) = (Ok tt, a1) ->
  main args stdin w
  = (if truthy (args_command args)
     then single_command (default "" (args_command args))
     else print_logo ;; interactive_loop stdin) (upd a1 [New args] (installed w)).
Proof.
  intros Hq Hid Hinit. unfold main, bind at 1. cbn [install_handler]. fold (installed w).
  unfold bind at 1. rewrite Hid. cbn [negb ret]. unfold bind at 1.
  rewrite Osintgram_new_quiet by done.
  change (api (installed w)) with (api w). by rewrite Hinit.
Qed.

Lemma main_single_command (args : Namespace) (stdin : list input_event)
    (c : string) (w : world remote) (a1 : Osintgram remote) :
  sigint_after w = None ->
  isalnum (args_id args) = true ->
  Osintgram_init args (api w) = (Ok tt, a1) ->
  args_command args = Some c ->
  c <> "" ->
  main args stdin w = single_command c (upd a1 [New args] (installed w)).
Proof.
  intros Hq Hid Hinit Hc Hne. rewrite (main_past_validation _ _ _ a1) by done.
  rewrite Hc. by destruct c.
Qed.


(** An empty name given with [-c] is false for [if args.command:], so the
    shell starts its interactive loop as if no command had been given. *)
Lemma main_empty_command_name (args : Namespace) (stdin : list input_event)
    (w : world remote) (a1 : Osintgram remote) :
  sigint_after w = None ->
  isalnum (args_id args) = true ->
  Osintgram_init args (api w) = (Ok tt, a1) ->
  args_command args = Some "" ->
  main args stdin w
  = (print_logo ;; interactive_loop stdin) (upd a1 [New args] (installed w)).
Proof.
  intros Hq Hid Hinit Hc. rewrite (main_past_validation _ _ _ a1) by done.
  by rewrite Hc.
Qed.


(** C10.  In single-command mode nothing catches what the command raises:
    whatever the resolved callable raises, an instance of [Exception]
    included, is what [main] raises, no error report is printed, and an
    [Exception] ends the process as an unhandled error.  The four directives
    are looked up in the registry like any other name, are not found, and
    print [Unknown command: ] with the name; the collaborator stays as the
    constructor left it. *)
Theorem C10_single_command_unguarded (args : Namespace) (stdin : list input_event)
    (c : string) (w : world remote) (a1 : Osintgram remote) :
  sigint_after w = None ->
  isalnum (args_id args) = true ->
  Osintgram_init args (api w) = (Ok tt, a1) ->
  args_command args = Some c ->
  (forall f e w2, commands !! c = Some f ->
     invoke f (upd a1 [New args] (installed w)) = (Raise e, w2) ->
     main args stdin w = (Raise e, w2)
     /\ (exists evs, trace w2 = trace w ++ New args :: evs
                     /\ count_events is_error_report evs = 0)
     /\ (is_Exception e = true ->
           unhandled_error (main args stdin w).1 = true
           /\ exit_status (main args stdin w).1 = Some 1%Z))
  /\ (c ∈ ["FILE=y"; "FILE=n"; "JSON=y"; "JSON=n"] ->
        main args stdin w
        = (Ok tt, record [unknown_name c] (upd a1 [New args] (installed w)))
        /\ api (main args stdin w).2 = a1
        /\ count_events is_collaborator_event [unknown_name c] = 0).
Proof.
  intros Hq Hid Hinit Hc. split.
  - intros f e w2 Hf Hr.
    assert (Hne : c <> "").
    { intros ->. by rewrite commands_not_empty in Hf. }
    assert (Hmain : main args stdin w = (Raise e, w2)).
    { rewrite (main_single_command _ _ c _ a1) by done.
      unfold single_command. by rewrite Hf. }
    split; [done|]. split.
    + destruct (invoke_behaved f _ _ _ Hr) as ((evs & Ht & HP) & _).
      exists evs. cbn in Ht. rewrite <- !app_assoc in Ht. split; [done|].
      apply count_events_none. eapply Forall_impl; [done|].
      apply body_event_not_report.
    + intros He. rewrite Hmain. by destruct e.
  - intros Hd. rewrite !elem_of_cons, elem_of_nil in Hd.
    assert (Hmain : main args stdin w
                    = (Ok tt, record [unknown_name c] (upd a1 [New args] (installed w)))).
    { destruct Hd as [-> | [-> | [-> | [-> | []]]]];
        rewrite (main_single_command _ _ _ _ a1) by done;
        unfold single_command; change (commands !! _) with (@None action);
        cbv beta iota; by rewrite printout_quiet. }
    rewrite Hmain. by repeat split.
Qed.

(** *** Where a raise can come from *)

Lemma deliver_raise (w w' : world remote) (e : pyexc) :
  deliver_sigint w = (Raise e, w') ->
  sigint_after w = Some 0 /\ sigint_after w' = None /\ is_Exception e = false.
Proof.
  unfold deliver_sigint. destruct (sigint_after w) as [[|k]|]; [|done..].
  by destruct (handler_installed w); intros [= <- <-].
Qed.

Lemma deliver_not_blocked (w w' : world remote) :
  deliver_sigint w <> (Blocked, w').
Proof.
  unfold deliver_sigint. destruct (sigint_after w) as [[|k]|]; [|done..].
  by destruct (handler_installed w).
Qed.

Lemma interruptible_inv {A} (m : M A) (w w' : world remote) (r : outcome A) :
  interruptible m w = (r, w') ->
  (exists e, r = Raise e /\ deliver_sigint w = (Raise e, w'))
  \/ (exists w0, deliver_sigint w = (Ok tt, w0) /\ m w0 = (r, w')).
Proof.
  unfold interruptible, bind.
  destruct (deliver_sigint w) as [[[]|e|] w0] eqn:Ed.
  - intros E. right. eauto.
  - intros [= <- <-]. left. eauto.
  - by destruct (deliver_not_blocked _ _ Ed).
Qed.

Lemma printout_raise (text : string) (c : option color) (w w' : world remote) (e : pyexc) :
  printout text c w = (Raise e, w') ->
  sigint_after w <> None /\ sigint_after w' = None /\ is_Exception e = false.
Proof.
  intros E. destruct (interruptible_inv _ _ _ _ E) as [(e1 & [= <-] & Ed)|(w0 & _ & E0)].
  - destruct (deliver_raise _ _ _ Ed) as (Hs & Hn & He). split; [congruence|done].
  - discriminate.
Qed.

Lemma input_inv (ev : option input_event) (w w' : world remote) (r : outcome string) :
  input ev w = (r, w') ->
  (exists e, r = Raise e /\ is_Exception e = false
             /\ sigint_after w <> None /\ sigint_after w' = None)
  \/ (exists l, ev = Some (Line l) /\ r = Ok l)
  \/ (ev = Some EOF /\ exists e, r = Raise e /\ is_Exception e = true)
  \/ (ev = None /\ r = Blocked).
Proof.
  intros E. destruct (interruptible_inv _ _ _ _ E) as [(e1 & -> & Ed)|(w0 & _ & E0)].
  - destruct (deliver_raise _ _ _ Ed) as (Hs & Hn & He).
    left. exists e1. repeat split; [done|congruence|done].
  - right. destruct ev as [[l|]|]; injection E0 as <- <-; eauto 10.
Qed.

Lemma set_write_file_raise (flag : bool) (w w' : world remote) (e : pyexc) :
  set_write_file flag w = (Raise e, w') ->
  sigint_after w <> None /\ sigint_after w' = None /\ is_Exception e = false.
Proof.
  intros E. destruct (interruptible_inv _ _ _ _ E) as [(e1 & [= <-] & Ed)|(w0 & _ & E0)].
  - destruct (deliver_raise _ _ _ Ed) as (Hs & Hn & He). split; [congruence|done].
  - discriminate.
Qed.

Lemma set_json_dump_raise (flag : bool) (w w' : world remote) (e : pyexc) :
  set_json_dump flag w = (Raise e, w') ->
  sigint_after w <> None /\ sigint_after w' = None /\ is_Exception e = false.
Proof.
  intros E. destruct (interruptible_inv _ _ _ _ E) as [(e1 & [= <-] & Ed)|(w0 & _ & E0)].
  - destruct (deliver_raise _ _ _ Ed) as (Hs & Hn & He). split; [congruence|done].
  - discriminate.
Qed.

(** What the [try] suite raises comes from a delivered signal or from the
    callable of a registered command. *)
Lemma dispatch_raise (cmd : string) (w w' : world remote) (e : pyexc) :
  dispatch cmd w = (Raise e, w') ->
  (sigint_after w <> None /\ sigint_after w' = None /\ is_Exception e = false)
  \/ (exists f wa, commands !! cmd = Some f /\ call_action f wa = (Raise e, w')).
Proof.
  unfold dispatch. destruct (String.eqb cmd ""); [done|].
  destruct (commands !! cmd) as [f|].
  { rewrite invoke_unfold. intros E. right. eauto. }
  repeat match goal with
         | |- context [if ?b then _ else _] => destruct b
         end; intros E; left.
  - by apply set_write_file_raise in E.
  - by apply set_write_file_raise in E.
  - by apply set_json_dump_raise in E.
  - by apply set_json_dump_raise in E.
  - by apply printout_raise in E.
Qed.

Lemma loop_body_raise (ev : option input_event) (w w' : world remote) (e : pyexc) :
  loop_body ev w = (Raise e, w') ->
  is_Exception e = false ->
  (sigint_after w <> None /\ sigint_after w' = None) \/ raised_by_command ev e w'.
Proof.
  unfold loop_body, bind.
  destruct (printout "Run a command: " (Some YELLOW) w) as [r1 w1] eqn:E1.
  destruct (behaved_printout (fun _ => True) I _ _ I _ _ _ E1) as (_ & _ & Hq1 & _).
  destruct r1 as [[]|e1|];
    [|intros [= <- <-] _; left; by apply printout_raise in E1 as (? & ? & ?)|done].
  destruct (input ev w1) as [r2 w2] eqn:E2.
  destruct (behaved_input (fun _ => True) I ev _ _ _ E2) as (_ & _ & Hq2 & _).
  destruct (input_inv _ _ _ _ E2)
    as [(e2 & -> & He2 & Hs2 & Hn2)|[(l & -> & ->)|[(-> & e2 & -> & He2)|(-> & ->)]]].
  - intros [= <- <-] _. left. split; [|done]. intros Hq. by apply Hs2, Hq1.
  - intros E He. destruct (dispatch_raise _ _ _ _ E) as [(Hs & Hn & _)|(f & wa & Hf & Hc)].
    + left. split; [|done]. intros Hq. by apply Hs, Hq2, Hq1.
    + right. by exists l, f, wa.
  - intros [= <- <-] He. congruence.
  - done.
Qed.

Lemma report_error_raise (e0 e : pyexc) (w w' : world remote) :
  report_error e0 w = (Raise e, w') -> deliver_sigint w = (Raise e, w').
Proof.
  intros E. destruct (interruptible_inv _ _ _ _ E) as [(e1 & [= <-] & Ed)|(w0 & _ & E0)];
    [done|discriminate].
Qed.

Lemma loop_iteration_raise (ev : option input_event) (w w' : world remote) (e : pyexc) :
  loop_iteration ev w = (Raise e, w') ->
  is_Exception e = false
  /\ ((sigint_after w <> None /\ sigint_after w' = None) \/ raised_by_command ev e w').
Proof.
  unfold loop_iteration, try_except_Exception.
  destruct (loop_body ev w) as [r0 w0] eqn:E0.
  destruct (loop_body_behaved ev _ _ _ E0) as (_ & _ & Hq0 & _).
  destruct r0 as [[]|e0|]; [done| |done].
  destruct (is_Exception e0) eqn:He0.
  - intros E. apply report_error_raise, deliver_raise in E as (Hs & Hn & He).
    split; [done|]. left. split; [|done]. intros Hq. apply Hq0 in Hq. congruence.
  - intros [= <- <-]. split; [done|]. by apply loop_body_raise.
Qed.

Lemma loop_iteration_blocks (w w' : world remote) (r : outcome unit) :
  loop_iteration None w = (r, w') -> r <> Ok tt.
Proof.
  unfold loop_iteration, try_except_Exception.
  destruct (loop_body None w) as [r0 w0] eqn:E0.
  assert (H0 : r0 = Blocked \/ exists e, r0 = Raise e /\ is_Exception e = false).
  { revert E0. unfold loop_body, bind.
    destruct (printout "Run a command: " (Some YELLOW) w) as [[[]|e1|] w1] eqn:E1.
    - destruct (input None w1) as [r2 w2] eqn:E2.
      destruct (input_inv _ _ _ _ E2)
        as [(e2 & -> & He2 & _)|[(l & [=] & _)|[([=] & _)|(_ & ->)]]].
      + intros [= <- <-]. eauto.
      + intros [= <- <-]. eauto.
    - intros [= <- <-]. apply printout_raise in E1 as (_ & _ & He). eauto.
    - intros [= <- <-]. eauto. }
  destruct H0 as [->|(e & -> & He)]; [by intros [= <- <-]|].
  rewrite He. by intros [= <- <-].
Qed.

(** C9.  The handler of the loop is [except Exception]: what the [try] suite
    raises outside that class leaves the turn as it is.  So a turn that ends
    by raising raises something that is no [Exception] and has printed no
    error report; [quit] and [exit] resolve to [sys.exit], whose
    [SystemExit] ends the loop with status 0; and a signal delivered during
    a turn ends it with the handler's [SystemExit(0)]. *)
Theorem C9_exits_pass_the_handler (w : world remote) :
  (forall ev e w1, loop_body ev w = (Raise e, w1) -> is_Exception e = false ->
     loop_iteration ev w = (Raise e, w1))
  /\ (forall ev e w', loop_iteration ev w = (Raise e, w') ->
        is_Exception e = false
        /\ exists evs, trace w' = trace w ++ evs
                       /\ count_events is_error_report evs = 0)
  /\ (sigint_after w = None ->
      forall l, strip l = "quit" \/ strip l = "exit" ->
        commands !! strip l = Some sys_exit_fn
        /\ loop_iteration (Some (Line l)) w
           = (Raise (SystemExit None), record [prompt; Invoke sys_exit_fn] w)
        /\ (forall stdin,
              interactive_loop (Line l :: stdin) w
              = (Raise (SystemExit None), record [prompt; Invoke sys_exit_fn] w))
        /\ exit_status (@Raise unit (SystemExit None)) = Some 0%Z
        /\ unhandled_error (@Raise unit (SystemExit None)) = false)
  /\ (handler_installed w = true -> sigint_after w <> None ->
      forall ev r w', loop_iteration ev w = (r, w') -> sigint_after w' = None ->
        r = Raise (SystemExit (Some 0%Z)) /\ last (trace w') = Some farewell
        /\ exit_status r = Some 0%Z).
Proof.
  split; [|split; [|split]].
  - intros ev e w1 Hb He. unfold loop_iteration, try_except_Exception.
    by rewrite Hb, He.
  - intros ev e w' E. split; [by apply loop_iteration_raise in E as [? _]|].
    revert E. unfold loop_iteration, try_except_Exception.
    destruct (loop_body ev w) as [r0 w0] eqn:E0.
    destruct (loop_body_behaved ev _ _ _ E0) as ((evs0 & Ht0 & HP0) & _).
    assert (Hno : count_events is_error_report evs0 = 0).
    { apply count_events_none. eapply Forall_impl; [done|].
      apply body_event_not_report. }
    destruct r0 as [[]|e0|]; [done| |done].
    destruct (is_Exception e0).
    + intros E. apply report_error_raise in E.
      destruct (behaved_deliver (fun ev => is_error_report ev = false) eq_refl _ _ _ E)
        as ((evs1 & Ht1 & HP1) & _).
      exists (evs0 ++ evs1). rewrite Ht1, Ht0, app_assoc. split; [done|].
      by rewrite count_events_app, Hno, count_events_none.
    + intros [= <- <-]. eauto.
  - intros Hq l Hl.
    assert (Hf : commands !! strip l = Some sys_exit_fn) by (by destruct Hl as [-> | ->]).
    assert (Hturn : loop_iteration (Some (Line l)) w
                    = (Raise (SystemExit None), record [prompt; Invoke sys_exit_fn] w)).
    { rewrite loop_iteration_quiet by done. rewrite (dispatch_registered _ _ Hf).
      unfold try_except_Exception. rewrite invoke_unfold. cbn [call_action].
      unfold sys_exit. rewrite interruptible_quiet by done.
      unfold raise. cbn [is_Exception]. by rewrite record_record. }
    repeat split; [done..|].
    intros stdin. cbn [interactive_loop]. unfold bind. by rewrite Hturn.
  - intros Hi Hs ev r w' E Hn.
    destruct (loop_iteration_behaved ev _ _ _ E) as (_ & _ & _ & Hd).
    destruct (Hd Hi Hs Hn) as [-> Hl]. by repeat split.
Qed.

Lemma interactive_loop_raise (stdin : list input_event) (w w' : world remote)
    (e : pyexc) :
  interactive_loop stdin w = (Raise e, w') ->
  is_Exception e = false
  /\ ((sigint_after w <> None /\ sigint_after w' = None)
      \/ raised_by_some_command stdin e w').
Proof.
  revert w. induction stdin as [|ev stdin IH]; intros w; cbn [interactive_loop].
  - intros E. destruct (loop_iteration_raise _ _ _ _ E) as [He [Hl|(l & f & wa & [=] & _)]].
    auto.
  - unfold bind. destruct (loop_iteration (Some ev) w) as [r1 w1] eqn:E1.
    destruct (loop_iteration_behaved _ _ _ _ E1) as (_ & _ & Hq1 & _).
    destruct r1 as [[]|e1|]; [| |done].
    + intros E. destruct (IH _ E) as [He [[Hs Hn]|(pre & ev' & post & -> & Hc)]].
      * split; [done|]. left. split; [|done]. intros Hq. by apply Hs, Hq1.
      * split; [done|]. right. by exists (ev :: pre), ev', post.
    + intros [= <- <-]. destruct (loop_iteration_raise _ _ _ _ E1) as [He [Hl|Hc]].
      * auto.
      * split; [done|]. right. by exists [], ev, stdin.
Qed.

Lemma interactive_loop_never_returns (stdin : list input_event) (w w' : world remote)
    (r : outcome unit) :
  interactive_loop stdin w = (r, w') -> r <> Ok tt.
Proof.
  revert w. induction stdin as [|ev stdin IH]; intros w; cbn [interactive_loop].
  - apply loop_iteration_blocks.
  - unfold bind. destruct (loop_iteration (Some ev) w) as [[[]|e1|] w1].
    + apply IH.
    + by intros [= <- <-].
    + by intros [= <- <-].
Qed.

(** C8.  Whenever the signal arrives during a run of [main] (any number of
    operations after the handler is installed), the handler prints the
    farewell and raises [SystemExit(0)], which nothing in [main] catches:
    the farewell is the last event, the status is 0 and no error is left
    unhandled.  In particular a signal that arrives while the loop waits in
    [input()] ends the turn just after the prompt.  The loop itself never
    returns, and when it ends by raising, either the signal was delivered
    or the callable of a registered command (such as [quit] and [exit])
    raised something that is no [Exception]. *)
Theorem C8_interrupt (args : Namespace) (stdin : list input_event) (w : world remote) :
  (forall r w', main args stdin w = (r, w') ->
     sigint_after w <> None -> sigint_after w' = None ->
     r = Raise (SystemExit (Some 0%Z)) /\ last (trace w') = Some farewell
     /\ exit_status r = Some 0%Z /\ unhandled_error r = false)
  /\ (handler_installed w = true -> sigint_after w = Some 1 ->
      forall ev,
        loop_iteration ev w
        = (Raise (SystemExit (Some 0%Z)), set_sigint None (record [prompt; farewell] w)))
  /\ (handler_installed w = true ->
      forall r w', interactive_loop stdin w = (r, w') ->
        r <> Ok tt
        /\ forall e, r = Raise e ->
             is_Exception e = false
             /\ ((sigint_after w <> None /\ sigint_after w' = None
                  /\ e = SystemExit (Some 0%Z))
                 \/ raised_by_some_command stdin e w')).
Proof.
  split; [|split].
  - intros r w' E Hs Hn.
    destruct (main_behaved args stdin w) as (m & Hm & Hb). rewrite Hm in E.
    destruct (Hb _ _ _ E) as (_ & _ & _ & Hd).
    destruct (Hd eq_refl Hs Hn) as [-> Hl]. by repeat split.
  - intros Hi Hs ev. unfold loop_iteration, try_except_Exception, loop_body.
    unfold bind at 1. unfold printout at 1, interruptible at 1, bind at 1, deliver_sigint at 1.
    rewrite Hs. cbn [emit]. unfold bind at 1, input, interruptible, bind at 1.
    unfold deliver_sigint. cbn. rewrite Hi. cbn.
    unfold set_sigint, record, upd. cbn. by rewrite Hi, <- app_assoc.
  - intros Hi r w' E. split; [by eapply interactive_loop_never_returns|].
    intros e ->. destruct (interactive_loop_raise _ _ _ _ E) as [He [[Hs Hn]|Hc]];
      (split; [done|]); [left|by right].
    destruct (interactive_loop_behaved stdin _ _ _ E) as (_ & _ & _ & Hd).
    destruct (Hd Hi Hs Hn) as [[= ->] _]. done.
Qed.

(** ** Further properties of the shell *)

(** *** Stripping *)

Lemma rstrip_head (c : ascii) (s : string) :
  isspace c = false -> rstrip (String c s) = String c (rstrip s).
Proof. intros Hc. cbn [rstrip]. destruct (rstrip s); [by rewrite Hc|done]. Qed.

Lemma rstrip_idempotent (s : string) : rstrip (rstrip s) = rstrip s.
Proof.
  induction s as [|c s IH]; [done|].
  cbn [rstrip]. destruct (rstrip s) as [|c' r] eqn:E.
  - destruct (isspace c) eqn:Hc; [done|]. cbn [rstrip]. by rewrite Hc.
  - change (rstrip (String c (String c' r)))
      with (match rstrip (String c' r) with
            | "" => if isspace c then "" else String c ""
            | String c0 r0 => String c (String c0 r0)
            end).
    by rewrite IH.
Qed.

Lemma lstrip_head (s : string) :
  lstrip s = "" \/ exists c s', lstrip s = String c s' /\ isspace c = false.
Proof.
  induction s as [|c s IH]; [by left|].
  cbn [lstrip]. destruct (isspace c) eqn:Hc; [done|]. right. eauto.
Qed.

Lemma strip_idempotent (s : string) : strip (strip s) = strip s.
Proof.
  unfold strip. destruct (lstrip_head s) as [->|(c & s' & -> & Hc)]; [done|].
  rewrite rstrip_head by done. cbn [lstrip]. rewrite Hc.
  rewrite <- rstrip_head by done. apply rstrip_idempotent.
Qed.

Lemma strip_whitespace (s : string) : all_chars isspace s = true -> strip s = "".
Proof.
  unfold strip. induction s as [|c s IH]; [done|].
  cbn [all_chars lstrip]. destruct (isspace c); [|done]. apply IH.
Qed.

(** *** End of input *)

Lemma loop_iteration_eof (w : world remote) :
  sigint_after w = None ->
  loop_iteration (Some EOF) w = (Ok tt, record [prompt; error_report eof_error] w).
Proof.
  intros Hq. rewrite loop_iteration_after_prompt by done.
  unfold try_except_Exception, bind, input. rewrite interruptible_quiet by done.
  unfold raise. cbn [is_Exception]. unfold report_error.
  rewrite printout_quiet by done. by rewrite record_record.
Qed.

(** X1.  The end of the input does not end the loop: [input()] raises
    [EOFError], the loop reports it as any other error and prompts again.
    After [n] ends of input in a row the loop has printed [n] prompts and
    [n] reports, and waits at the next prompt. *)
Theorem X1_eof_does_not_end_the_loop (n : nat) (w : world remote) :
  sigint_after w = None ->
  (forall stdin,
     interactive_loop (EOF :: stdin) w
     = interactive_loop stdin (record [prompt; error_report eof_error] w))
  /\ error_report eof_error
     = Printout ("Error: EOF when reading a line" +:+ nl) (Some RED)
  /\ interactive_loop (replicate n EOF) w
     = (Blocked,
        record (concat (replicate n [prompt; error_report eof_error]) ++ [prompt]) w).
Proof.
  intros Hq. split; [|split; [done|]].
  - intros stdin. cbn [interactive_loop]. unfold bind.
    by rewrite loop_iteration_eof.
  - revert w Hq. induction n as [|n IH]; intros w Hq.
    + cbn [replicate interactive_loop concat]. by apply loop_iteration_quiet_blocked.
    + cbn [replicate interactive_loop concat]. unfold bind.
      rewrite loop_iteration_eof by done. rewrite IH by done.
      by rewrite record_record, <- app_assoc.
Qed.

(** *** Whitespace around a line *)

(** X2.  Whitespace around a typed line never matters: a line and its
    stripped text make the same turn, in every state.  A line made of
    whitespace only is an empty command: the turn prints the prompt and
    nothing else. *)
Theorem X2_padding_is_ignored (l : string) (w : world remote) :
  loop_iteration (Some (Line l)) w = loop_iteration (Some (Line (strip l))) w
  /\ (all_chars isspace l = true -> sigint_after w = None ->
      loop_iteration (Some (Line l)) w = (Ok tt, record [prompt] w)).
Proof.
  split.
  - unfold loop_iteration, try_except_Exception.
    assert (Hb : loop_body (Some (Line l)) w = loop_body (Some (Line (strip l))) w).
    { unfold loop_body, bind.
      destruct (printout "Run a command: " (Some YELLOW) w) as [[[]|e|] w1]; [|done..].
      unfold input, interruptible, bind.
      destruct (deliver_sigint w1) as [[[]|e|] w2]; [|done..].
      cbn [ret]. by rewrite strip_idempotent. }
    by rewrite Hb.
  - intros Hs Hq. rewrite loop_iteration_quiet by done.
    by rewrite (strip_whitespace _ Hs).
Qed.

(** *** Lines that name no command *)

Lemma unregistered_turn (l : string) (w : world remote) :
  sigint_after w = None ->
  commands !! strip l = None ->
  exists a' evs,
    loop_iteration (Some (Line l)) w = (Ok tt, upd a' (prompt :: evs) w)
    /\ rest a' = rest (api w)
    /\ Forall (fun ev => is_Invoke ev = false /\ is_Call ev = false
                         /\ is_prompt ev = false) evs.
Proof.
  intros Hq Hc. rewrite loop_iteration_quiet by done.
  unfold try_except_Exception, dispatch. rewrite Hc.
  destruct (String.eqb (strip l) "").
  { exists (api w), []. by repeat constructor. }
  destruct (String.eqb (strip l) "FILE=y").
  { rewrite set_write_file_quiet by done. rewrite upd_record.
    eexists _, _. split; [done|]. by repeat constructor. }
  destruct (String.eqb (strip l) "FILE=n").
  { rewrite set_write_file_quiet by done. rewrite upd_record.
    eexists _, _. split; [done|]. by repeat constructor. }
  destruct (String.eqb (strip l) "JSON=y").
  { rewrite set_json_dump_quiet by done. rewrite upd_record.
    eexists _, _. split; [done|]. by repeat constructor. }
  destruct (String.eqb (strip l) "JSON=n").
  { rewrite set_json_dump_quiet by done. rewrite upd_record.
    eexists _, _. split; [done|]. by repeat constructor. }
  rewrite printout_quiet by done. rewrite record_record.
  exists (api w), [unknown_command]. by repeat constructor.
Qed.


(** *** The registered commands, one by one *)

Lemma api_call_quiet (m : method) (w : world remote) :
  sigint_after w = None ->
  api_call m w
  = ((api_method m (api w)).1, upd (api_method m (api w)).2 [Call m] w).
Proof.
  intros Hq. unfold api_call. rewrite interruptible_quiet by done.
  unfold bind, emit, on_api. cbn. by destruct (api_method m (api w)).
Qed.


(** X4.  A command bound to a method of the collaborator calls that method
    once, on the collaborator as the earlier turns left it; when the method
    returns, its value is dropped and this layer prints nothing for it. *)
Theorem X4_bound_command (l : string) (m : method) (w : world remote)
    (data : list string) (a' : Osintgram remote) :
  sigint_after w = None ->
  commands !! strip l = Some (bound m) ->
  api_method m (api w) = (Ok data, a') ->
  loop_iteration (Some (Line l)) w
  = (Ok tt, upd a' [prompt; Invoke (bound m); Call m] w).
Proof.
  intros Hq Hf Hm. rewrite loop_iteration_quiet by done.
  rewrite (dispatch_registered _ _ Hf). unfold try_except_Exception.
  rewrite invoke_unfold. cbn [call_action]. unfold bind.
  rewrite api_call_quiet by done. cbn [api record upd]. rewrite Hm. cbn [fst snd ret].
  unfold upd. cbn. by rewrite <- !app_assoc.
Qed.


Lemma for_quiet {A} (l : list A) (body : A -> M unit) (out : A -> list event)
    (w : world remote) :
  (forall x w0, sigint_after w0 = None -> body x w0 = (Ok tt, record (out x) w0)) ->
  sigint_after w = None ->
  for_ l body w = (Ok tt, record (flat_map out l) w).
Proof.
  intros Hbody. revert w. induction l as [|x l IH]; intros w Hq; cbn [for_ flat_map].
  - unfold ret, record, upd. destruct w. cbn. by rewrite app_nil_r.
  - unfold bind. rewrite Hbody by done. rewrite IH by done. by rewrite record_record.
Qed.

Lemma print_commands_quiet (w : world remote) :
  sigint_after w = None ->
  print_commands w = (Ok tt, record (flat_map help_row command_list) w).
Proof.
  intros Hq. unfold print_commands. apply for_quiet; [|done].
  intros entry w0 Hq0. unfold bind. rewrite printout_quiet by done.
  unfold print. rewrite interruptible_quiet by done.
  unfold emit, help_row, record, upd. cbn [api trace handler_installed sigint_after].
  by rewrite <- app_assoc.
Qed.

(** X6.  [list] and [help] are one command: either prints the 25 rows of the
    help table in the order of the table, each as the name followed by two
    tabs and then the description on the same line, and leaves the
    collaborator alone. *)
Theorem X6_list_and_help (l : string) (w : world remote) :
  sigint_after w = None ->
  strip l = "list" \/ strip l = "help" ->
  loop_iteration (Some (Line l)) w
  = (Ok tt, record (prompt :: Invoke print_commands_fn
                    :: flat_map help_row command_list) w)
  /\ length (flat_map help_row command_list) = 50.
Proof.
  intros Hq Hl. split; [|done].
  assert (Hf : commands !! strip l = Some print_commands_fn)
    by (by destruct Hl as [-> | ->]).
  rewrite loop_iteration_quiet by done.
  rewrite (dispatch_registered _ _ Hf). unfold try_except_Exception.
  rewrite invoke_unfold. cbn [call_action].
  rewrite print_commands_quiet by done. by rewrite !record_record.
Qed.

(** *** The two tables *)

#[local] Instance method_eq_dec : EqDecision method.
Proof. solve_decision. Defined.

#[local] Instance action_eq_dec : EqDecision action.
Proof. solve_decision. Defined.

Lemma commands_items_lookup (name : string) :
  is_Some (commands !! name) <-> name ∈ commands_items.*1.
Proof.
  split.
  - intros [f Hf]. apply commands_lookup in Hf.
    apply list_elem_of_fmap. by exists (name, f).
  - intros Hin. apply list_elem_of_fmap in Hin as ([name' f] & -> & Hin).
    exists f. by apply commands_lookup.
Qed.

(** X7.  The help table and the registry agree.  Every row of the table
    names a registered command, except the two rows that describe the
    [FILE=] and [JSON=] directives, whose names are no commands; every
    registered command has a row, except [list], [help], [quit] and [exit],
    which the table does not mention; no name has two rows. *)
Theorem X7_help_table_matches_registry :
  (forall name, name ∈ command_list.*1 ->
     name = "FILE=y/n" \/ name = "JSON=y/n" \/ is_Some (commands !! name))
  /\ (forall name, is_Some (commands !! name) ->
        name ∈ ["list"; "help"; "quit"; "exit"] \/ name ∈ command_list.*1)
  /\ (forall name, name ∈ ["list"; "help"; "quit"; "exit"] ->
        is_Some (commands !! name) /\ name ∉ command_list.*1)
  /\ commands !! "FILE=y/n" = None /\ commands !! "JSON=y/n" = None
  /\ NoDup command_list.*1.
Proof.
  split; [|split; [|split; [|split; [done|split; [done|]]]]].
  - apply Forall_forall.
    assert (H : Forall (fun name => name = "FILE=y/n" \/ name = "JSON=y/n"
                                    \/ name ∈ commands_items.*1) command_list.*1)
      by (apply (bool_decide_unpack _); vm_compute; exact I).
    eapply Forall_impl; [exact H|]. intros name [?|[?|?]]; auto.
    right. right. by apply commands_items_lookup.
  - intros name Hname. apply commands_items_lookup in Hname. revert name Hname.
    apply Forall_forall. apply (bool_decide_unpack _); vm_compute; exact I.
  - intros name Hname. split.
    + apply commands_items_lookup. revert name Hname.
      apply Forall_forall. apply (bool_decide_unpack _); vm_compute; exact I.
    + revert name Hname. apply Forall_forall. apply (bool_decide_unpack _); vm_compute; exact I.
  - apply (bool_decide_unpack _); vm_compute; exact I.
Qed.


(** *** Startup *)

Lemma all_chars_middle (p : ascii -> bool) (pre post : string) (c : ascii) :
  p c = false -> all_chars p (pre +:+ String c post) = false.
Proof.
  intros Hc. induction pre as [|a pre IH].
  - change ("" +:+ String c post) with (String c post). cbn [all_chars]. by rewrite Hc.
  - change (String a pre +:+ String c post) with (String a (pre +:+ String c post)).
    cbn [all_chars]. rewrite IH. by destruct (p a).
Qed.

Lemma isalnum_middle (pre post : string) (c : ascii) :
  isalnum_char c = false -> isalnum (pre +:+ String c post) = false.
Proof.
  intros Hc. pose proof (all_chars_middle isalnum_char pre post c Hc) as H.
  by destruct pre.
Qed.

Lemma main_invalid (args : Namespace) (stdin : list input_event) (w : world remote) :
  sigint_after w = None ->
  isalnum (args_id args) = false ->
  main args stdin w
  = (Raise (SystemExit (Some 1%Z)), record [invalid_username] (installed w)).
Proof.
  intros Hq Hid. unfold main, bind at 1. cbn [install_handler]. fold (installed w).
  unfold bind at 1. rewrite Hid. cbn [negb]. unfold bind at 1.
  rewrite printout_quiet by done. unfold sys_exit.
  by rewrite interruptible_quiet.
Qed.

(** X9.  A target name that is empty, or that holds one character that is
    not alphanumeric anywhere in it, is refused: [main] prints the error and
    leaves with status 1, whatever command or input was given.  The
    underscore, the period and the hyphen are such characters. *)
Theorem X9_invalid_name_rejected (args : Namespace) (stdin : list input_event)
    (w : world remote) :
  sigint_after w = None ->
  (args_id args = ""
   \/ exists pre c post,
        args_id args = pre +:+ String c post /\ isalnum_char c = false) ->
  main args stdin w
  = (Raise (SystemExit (Some 1%Z)), record [invalid_username] (installed w))
  /\ isalnum_char "_" = false /\ isalnum_char "." = false
  /\ isalnum_char "-" = false.
Proof.
  intros Hq Hid. split; [|done]. apply main_invalid; [done|].
  destruct Hid as [->|(pre & c & post & -> & Hc)]; [done|].
  by apply isalnum_middle.
Qed.

(** X10.  A failure of the constructor is not caught: with a valid name,
    what [Osintgram(...)] raises is what [main] raises, before the command
    is looked up, the logo printed or the loop entered; an [Exception] ends
    the process as an unhandled error. *)
Theorem X10_constructor_failure (args : Namespace) (stdin : list input_event)
    (w : world remote) (e : pyexc) (a1 : Osintgram remote) :
  sigint_after w = None ->
  isalnum (args_id args) = true ->
  Osintgram_init args (api w) = (Raise e, a1) ->
  main args stdin w = (Raise e, upd a1 [New args] (installed w))
  /\ (is_Exception e = true ->
      unhandled_error (main args stdin w).1 = true
      /\ exit_status (main args stdin w).1 = Some 1%Z).
Proof.
  intros Hq Hid Hinit.
  assert (Hmain : main args stdin w = (Raise e, upd a1 [New args] (installed w))).
  { unfold main, bind at 1. cbn [install_handler]. fold (installed w).
    unfold bind at 1. rewrite Hid. cbn [negb ret]. unfold bind at 1.
    rewrite Osintgram_new_quiet by done.
    change (api (installed w)) with (api w). by rewrite Hinit. }
  split; [done|]. intros He. rewrite Hmain. by destruct e.
Qed.

Lemma print_logo_quiet (w : world remote) :
  sigint_after w = None -> print_logo w = (Ok tt, record logo_events w).
Proof.
  intros Hq. unfold print_logo, bind. rewrite !printout_quiet by done.
  rewrite (for_quiet _ _ (fun line => [Printout (line +:+ nl) None])).
  - by rewrite !record_record.
  - intros line w0 Hq0. by rewrite printout_quiet.
  - done.
Qed.

(** X11.  Without a command (no [-c], or [-c] with an empty name) and with a
    valid name, [main] builds the collaborator, prints the logo (the
    artwork, the version line and the five instructions) once and enters the
    loop: the first prompt comes right after the logo. *)
Theorem X11_interactive_start (args : Namespace) (stdin : list input_event)
    (w : world remote) (a1 : Osintgram remote) :
  sigint_after w = None ->
  isalnum (args_id args) = true ->
  Osintgram_init args (api w) = (Ok tt, a1) ->
  truthy (args_command args) = false ->
  main args stdin w
  = interactive_loop stdin (upd a1 (New args :: logo_events) (installed w))
  /\ length logo_events = 7
  /\ forall r w', main args stdin w = (r, w') ->
       exists evs, trace w' = trace w ++ New args :: logo_events ++ prompt :: evs.
Proof.
  intros Hq Hid Hinit Hc.
  assert (Hmain : main args stdin w
                  = interactive_loop stdin
                      (upd a1 (New args :: logo_events) (installed w))).
  { rewrite (main_past_validation _ _ _ a1) by done. rewrite Hc.
    unfold bind. rewrite print_logo_quiet by done.
    unfold record. by rewrite upd_upd. }
  split; [done|]. split; [done|]. intros r w'. rewrite Hmain. intros E.
  destruct (interactive_loop_prompts stdin
              (upd a1 (New args :: logo_events) (installed w)) w' r Hq E)
    as (evs & Ht).
  exists evs. rewrite Ht. cbn [trace upd installed].
  by rewrite <- app_assoc.
Qed.

Lemma registry_keys_stripped (c : string) (f : action) :
  commands !! c = Some f -> strip c = c.
Proof.
  intros Hf. apply commands_lookup in Hf. revert Hf.
  assert (H : Forall (fun e : string * action => strip e.1 = e.1) commands_items)
    by (apply (bool_decide_unpack _); vm_compute; exact I).
  rewrite Forall_forall in H. intros Hf. exact (H _ Hf).
Qed.

(** X12.  The name given with [-c] is looked up as it stands; it is not
    stripped as a typed line is.  A name with whitespace around it, the
    padded name of a registered command included, is therefore answered with
    [Unknown command: ] and the name as given, and nothing is run. *)
Theorem X12_startup_name_not_stripped (args : Namespace) (stdin : list input_event)
    (c : string) (w : world remote) (a1 : Osintgram remote) :
  sigint_after w = None ->
  isalnum (args_id args) = true ->
  Osintgram_init args (api w) = (Ok tt, a1) ->
  args_command args = Some c ->
  strip c <> c ->
  commands !! c = None
  /\ main args stdin w
     = (Ok tt, record [unknown_name c] (upd a1 [New args] (installed w))).
Proof.
  intros Hq Hid Hinit Hc Hpad.
  assert (Hnone : commands !! c = None).
  { destruct (commands !! c) as [f|] eqn:Hf; [|done].
    by apply registry_keys_stripped in Hf. }
  split; [done|].
  rewrite (main_single_command _ _ c _ a1); [|done..|by intros ->].
  unfold single_command. rewrite Hnone. by rewrite printout_quiet.
Qed.

(** *** Prompts and commands over a session *)

Lemma action_event_not_is_prompt (ev : event) :
  action_event ev -> is_prompt ev = false /\ is_Invoke ev = false.
Proof. by destruct 1. Qed.

(** One turn in a quiet world: the prompt, then no further prompt and at
    most one call of a registry callable. *)
Lemma turn_shape (ev : option input_event) (w w' : world remote) (r : outcome unit) :
  sigint_after w = None ->
  loop_iteration ev w = (r, w') ->
  exists evs,
    trace w' = trace w ++ prompt :: evs
    /\ count_events is_prompt evs = 0
    /\ count_events is_Invoke evs <= 1
    /\ (ev = None -> count_events is_Invoke evs = 0).
Proof.
  intros Hq. destruct ev as [[l|]|].
  - destruct (commands !! strip l) as [f|] eqn:Hf.
    + rewrite loop_iteration_quiet by done. rewrite (dispatch_registered _ _ Hf).
      change (try_except_Exception (invoke f) report_error (record [prompt] w))
        with (try_except_Exception (call_action f) report_error
                (record [Invoke f] (record [prompt] w))).
      intros E.
      assert (Hb : behaved (fun ev => is_prompt ev = false /\ is_Invoke ev = false)
                     (try_except_Exception (call_action f) report_error)).
      { apply behaved_try.
        - eapply behaved_weaken; [|apply call_action_behaved].
          apply action_event_not_is_prompt.
        - intros e. by apply behaved_printout. }
      destruct (Hb _ _ _ E) as ((evs & Ht & HP) & _).
      exists (Invoke f :: evs). cbn in Ht. rewrite <- !app_assoc in Ht.
      split; [done|]. rewrite !count_events_cons. cbn.
      assert (Hp : count_events is_prompt evs = 0).
      { apply count_events_none. eapply Forall_impl; [done|]. by intros ev [? ?]. }
      assert (Hi : count_events is_Invoke evs = 0).
      { apply count_events_none. eapply Forall_impl; [done|]. by intros ev [? ?]. }
      rewrite Hp, Hi. split; [done|]. split; [lia|done].
    + destruct (unregistered_turn l w Hq Hf) as (a1 & evs1 & Ht & _ & HP).
      rewrite Ht. intros [= <- <-]. exists evs1. split; [done|].
      assert (Hp : count_events is_prompt evs1 = 0).
      { apply count_events_none. eapply Forall_impl; [done|]. by intros ev (? & ? & ?). }
      assert (Hi : count_events is_Invoke evs1 = 0).
      { apply count_events_none. eapply Forall_impl; [done|]. by intros ev (? & ? & ?). }
      rewrite Hp, Hi. split; [done|]. split; [lia|done].
  - rewrite loop_iteration_eof by done. intros [= <- <-].
    exists [error_report eof_error]. split; [done|]. split; [done|].
    split; [|done]. rewrite count_events_cons. cbn. lia.
  - rewrite loop_iteration_quiet_blocked by done. intros [= <- <-].
    exists []. split; [done|]. split; [done|]. split; [|done]. cbn. lia.
Qed.

(** X13.  Over a whole session without an interrupt the loop prints one
    prompt per turn and runs at most one command per line read: the number
    of prompts is at least one and at most the number of terminal events
    plus one, and the number of calls of a registry callable is at most the
    number of prompts and at most the number of terminal events. *)
Theorem X13_one_prompt_one_command_per_turn (stdin : list input_event)
    (w w' : world remote) (r : outcome unit) :
  sigint_after w = None ->
  interactive_loop stdin w = (r, w') ->
  exists evs,
    trace w' = trace w ++ evs
    /\ 1 <= count_events is_prompt evs <= S (length stdin)
    /\ count_events is_Invoke evs <= count_events is_prompt evs
    /\ count_events is_Invoke evs <= length stdin.
Proof.
  revert w. induction stdin as [|ev stdin IH]; intros w Hq; cbn [interactive_loop].
  - intros E. destruct (turn_shape _ _ _ _ Hq E) as (evs & Ht & Hp & _ & Hi).
    exists (prompt :: evs). split; [done|].
    rewrite !count_events_cons, Hp, (Hi eq_refl). cbn. lia.
  - unfold bind. destruct (loop_iteration (Some ev) w) as [r1 w1] eqn:E1.
    destruct (turn_shape _ _ _ _ Hq E1) as (evs1 & Ht1 & Hp1 & Hi1 & _).
    destruct (loop_iteration_behaved _ _ _ _ E1) as (_ & _ & Hq1 & _).
    assert (Hstop : forall r0, (r0, w1) = (r, w') ->
              exists evs,
                trace w' = trace w ++ evs
                /\ 1 <= count_events is_prompt evs <= S (length (ev :: stdin))
                /\ count_events is_Invoke evs <= count_events is_prompt evs
                /\ count_events is_Invoke evs <= length (ev :: stdin)).
    { intros r0 [= _ <-]. exists (prompt :: evs1). split; [done|].
      rewrite !count_events_cons, Hp1. cbn. lia. }
    destruct r1 as [[]|e|]; [|by apply Hstop..].
    intros E2. destruct (IH _ (Hq1 Hq) E2) as (evs2 & Ht2 & Hp2 & Hi2 & Hl2).
    exists ((prompt :: evs1) ++ evs2). split; [by rewrite Ht2, Ht1, <- app_assoc|].
    rewrite !count_events_app, !count_events_cons, Hp1. cbn. cbn in Hp2. lia.
Qed.

End Shell.

Arguments upd {remote} _ _ _.
Arguments record {remote} _ _.
Arguments installed {remote} _.
Arguments set_sigint {remote} _ _.
Arguments main {remote} _ _ _ _ _ _.
Arguments loop_iteration {remote} _ _ _.
Arguments loop_body {remote} _ _ _.
Arguments interactive_loop {remote} _ _ _.
Arguments invoke {remote} _ _ _.
Arguments call_action {remote} _ _ _.
Arguments print_full_data {remote} _ _ _.
Arguments try_except_Exception {remote} _ _ _.
Arguments report_error {remote} _ _.
Arguments raised_by_some_command {remote} _ _ _ _.

(** ** The embedding at work *)

Example strip_example : strip ("  list " +:+ tab +:+ nl) = "list".
Proof. reflexivity. Qed.

Example strip_inner_space : strip " fwers email " = "fwers email".
Proof. reflexivity. Qed.

Example isalnum_examples :
  isalnum "abc123" = true /\ isalnum "abc_123" = false
  /\ isalnum "abc.123" = false /\ isalnum "" = false.
Proof. by repeat split. Qed.

(** A session on the demo collaborator: a directive, an unknown word, an end
    of file, a failing command, then [quit]; the line after it is never
    read. *)
Example session_example :
  interactive_loop demo_method
    [Line " FILE=y "; Line "zzz"; EOF; Line "addrs"; Line "quit"; Line "list"]
    demo_world
  = (Raise (SystemExit None),
     upd {| write_file := true; json_dump := false; rest := 1 |}
       [ prompt; SetWriteFile true;
         prompt; unknown_command;
         prompt; error_report (ExceptionOf "EOFError" "EOF when reading a line");
         prompt; Invoke (bound get_addrs); Call get_addrs;
         error_report (ExceptionOf "ConnectionError" "network unreachable");
         prompt; Invoke sys_exit_fn ]
       demo_world).
Proof. reflexivity. Qed.

(** ** The claims on the demo collaborator *)


Lemma C2_exception_reported_witness :
  let e := ExceptionOf "ConnectionError" "network unreachable" in
  let w1 := upd {| write_file := false; json_dump := false; rest := 1 |}
                [prompt; Invoke (bound get_addrs); Call get_addrs] demo_world in
  loop_iteration demo_method (Some (Line "addrs")) demo_world
  = (Ok tt, record [error_report e] w1)
  /\ error_report e = Printout ("Error: " +:+ str_exc e +:+ nl) (Some RED)
  /\ forall stdin,
       interactive_loop demo_method (Line "addrs" :: stdin) demo_world
       = interactive_loop demo_method stdin (record [error_report e] w1).
Proof.
  intros e w1.
  apply (C2_exception_reported nat demo_method "addrs" (bound get_addrs) e demo_world w1);
    reflexivity.
Defined.

Lemma C3_unknown_command_witness :
  loop_iteration demo_method (Some (Line " zzz ")) demo_world
  = (Ok tt, record [prompt; unknown_command] demo_world)
  /\ api (record [prompt; unknown_command] demo_world) = api demo_world
  /\ count_events is_collaborator_event [prompt; unknown_command] = 0
  /\ count_events is_Invoke [prompt; unknown_command] = 0
  /\ forall stdin,
       interactive_loop demo_method (Line " zzz " :: stdin) demo_world
       = interactive_loop demo_method stdin (record [prompt; unknown_command] demo_world).
Proof.
  apply (C3_unknown_command nat demo_method " zzz " demo_world).
  - reflexivity.
  - discriminate.
  - reflexivity.
  - rewrite !elem_of_cons, elem_of_nil. intros [H|[H|[H|[H|[]]]]]; discriminate H.
Defined.

Lemma C4_toggle_directives_witness :
  commands !! "FILE=y" = None
  /\ write_file (api (loop_iteration demo_method (Some (Line " FILE=y")) demo_world).2) = true
  /\ json_dump (api (loop_iteration demo_method (Some (Line "JSON=n ")) demo_world).2) = false
  /\ write_file
       (api (interactive_loop demo_method [Line "FILE=y"; Line " FILE=n "] demo_world).2)
     = false
  /\ api (interactive_loop demo_method [Line "JSON=y"; Line "JSON=y "] demo_world).2
     = api (interactive_loop demo_method [Line "JSON=y"] demo_world).2.
Proof.
  destruct (C4_toggle_directives nat demo_method demo_world eq_refl)
    as ((H1 & _) & Hfile & Hjson & Hseq & Hidem).
  split; [exact H1|]. split.
  { destruct (Hfile " FILE=y" true eq_refl) as [-> H]. exact H. }
  split.
  { destruct (Hjson "JSON=n " false eq_refl) as [-> H]. exact H. }
  split.
  { exact (proj2 (Hseq "FILE=y" " FILE=n " eq_refl eq_refl)). }
  apply (Hidem "JSON=y" "JSON=y" "JSON=y "); [|reflexivity..].
  rewrite !elem_of_cons. auto.
Defined.

Lemma C5_startup_validation_witness :
  main demo_init demo_method demo_art (demo_args "abc-123" None) [Line "list"] demo_world
  = (Raise (SystemExit (Some 1%Z)), record [invalid_username] (installed demo_world))
  /\ exit_status
       (main demo_init demo_method demo_art (demo_args "abc 123" None) [] demo_world).1
     = Some 1%Z
  /\ exists evs,
       trace (main demo_init demo_method demo_art (demo_args "abc123" None) []
                demo_world).2
       = trace demo_world ++ New (demo_args "abc123" None) :: evs.
Proof.
  destruct (C5_startup_validation nat demo_init demo_method demo_art
              (demo_args "abc-123" None) [Line "list"] demo_world eq_refl)
    as [Hdash _].
  destruct (C5_startup_validation nat demo_init demo_method demo_art
              (demo_args "abc 123" None) [] demo_world eq_refl)
    as [Hspace _].
  destruct (C5_startup_validation nat demo_init demo_method demo_art
              (demo_args "abc123" None) [] demo_world eq_refl)
    as (_ & Hvalid & _).
  split; [exact (proj1 (Hdash eq_refl))|]. split.
  - exact (proj1 (proj2 (Hspace eq_refl))).
  - exact (Hvalid eq_refl).
Defined.

Lemma C6_print_full_data_witness :
  print_full_data [] "Following Emails" demo_world
  = (Ok tt, record [header "Following Emails"; no_data] demo_world)
  /\ print_full_data ["ann@example.org"; "bob@example.org"] "Follower Emails" demo_world
     = (Ok tt, record [header "Follower Emails"; bullet "ann@example.org";
                       bullet "bob@example.org"] demo_world)
  /\ count_events is_bullet
       [header "Follower Emails"; bullet "ann@example.org"; bullet "bob@example.org"]
     = 2.
Proof.
  destruct (C6_print_full_data nat "Following Emails" demo_world eq_refl) as (H0 & _).
  destruct (C6_print_full_data nat "Follower Emails" demo_world eq_refl) as (_ & _ & H2).
  split; [exact H0|]. exact (H2 "ann@example.org" ["bob@example.org"]).
Defined.


Lemma C8_interrupt_witness :
  let w12 := set_sigint (Some 12) demo_world in
  let run := main demo_init demo_method demo_art (demo_args "abc123" None)
               [Line "fwingsemail"] w12 in
  (run.1 = Raise (SystemExit (Some 0%Z)) /\ last (trace run.2) = Some farewell
   /\ exit_status run.1 = Some 0%Z /\ unhandled_error run.1 = false)
  /\ loop_iteration demo_method (Some (Line "info"))
       (set_sigint (Some 1) (installed demo_world))
     = (Raise (SystemExit (Some 0%Z)),
        set_sigint None
          (record [prompt; farewell] (set_sigint (Some 1) (installed demo_world))))
  /\ raised_by_some_command demo_method [Line "cache"; Line " exit"; Line "list"]
       (SystemExit None)
       (interactive_loop demo_method [Line "cache"; Line " exit"; Line "list"]
          (installed demo_world)).2.
Proof.
  intros w12 run.
  destruct (C8_interrupt nat demo_init demo_method demo_art (demo_args "abc123" None)
              [Line "fwingsemail"] w12) as (Hmain & _).
  destruct (C8_interrupt nat demo_init demo_method demo_art (demo_args "abc123" None)
              [] (set_sigint (Some 1) (installed demo_world))) as (_ & Hprompt & _).
  destruct (C8_interrupt nat demo_init demo_method demo_art (demo_args "abc123" None)
              [Line "cache"; Line " exit"; Line "list"] (installed demo_world))
    as (_ & _ & Hloop).
  split.
  { apply (Hmain _ _ (surjective_pairing _)); [discriminate|reflexivity]. }
  split.
  { exact (Hprompt eq_refl eq_refl (Some (Line "info"))). }
  destruct (Hloop eq_refl (Raise (SystemExit None)) _ eq_refl) as [_ Hwhy].
  destruct (Hwhy _ eq_refl) as [_ [(Hs & _)|Hcmd]].
  - exfalso. apply Hs. reflexivity.
  - exact Hcmd.
Defined.

Lemma C9_exits_pass_the_handler_witness :
  loop_iteration demo_method (Some (Line "followers")) demo_world
  = (Raise (SystemExit (Some 3%Z)),
     upd {| write_file := false; json_dump := false; rest := 1 |}
         [prompt; Invoke (bound get_followers); Call get_followers] demo_world)
  /\ count_events is_error_report
       [prompt; Invoke (bound get_followers); Call get_followers] = 0
  /\ interactive_loop demo_method [Line " quit "; Line "list"] demo_world
     = (Raise (SystemExit None), record [prompt; Invoke sys_exit_fn] demo_world)
  /\ loop_iteration demo_method (Some (Line "exit")) demo_world
     = (Raise (SystemExit None), record [prompt; Invoke sys_exit_fn] demo_world)
  /\ (loop_iteration demo_method (Some (Line "list"))
        (set_sigint (Some 5) (installed demo_world))).1
     = Raise (SystemExit (Some 0%Z)).
Proof.
  destruct (C9_exits_pass_the_handler nat demo_method demo_world)
    as (Hpass & Hraise & Hquit & _).
  destruct (C9_exits_pass_the_handler nat demo_method
              (set_sigint (Some 5) (installed demo_world))) as (_ & _ & _ & Hsig).
  assert (Hturn := Hpass (Some (Line "followers")) (SystemExit (Some 3%Z)) _
                     eq_refl eq_refl).
  split; [exact Hturn|]. split; [reflexivity|].
  destruct (Hraise _ _ _ Hturn) as [_ _].
  destruct (Hquit eq_refl " quit " (or_introl eq_refl)) as (_ & _ & Hq & _).
  destruct (Hquit eq_refl "exit" (or_intror eq_refl)) as (_ & He & _).
  split; [exact (Hq [Line "list"])|]. split; [exact He|].
  refine (proj1 (Hsig eq_refl _ (Some (Line "list")) _ _ (surjective_pairing _) eq_refl)).
  discriminate.
Defined.

Lemma C10_single_command_unguarded_witness :
  let e := ExceptionOf "ConnectionError" "network unreachable" in
  let run c := main demo_init demo_method demo_art (demo_args "abc123" (Some c)) []
                 demo_world in
  (run "addrs").1 = Raise e
  /\ unhandled_error (run "addrs").1 = true
  /\ exit_status (run "addrs").1 = Some 1%Z
  /\ (run "FILE=y").1 = Ok tt
  /\ last (trace (run "FILE=y").2) = Some (unknown_name "FILE=y")
  /\ write_file (api (run "FILE=y").2) = false.
Proof.
  intros e run.
  destruct (C10_single_command_unguarded nat demo_init demo_method demo_art
              (demo_args "abc123" (Some "addrs")) [] "addrs" demo_world _
              eq_refl eq_refl eq_refl eq_refl) as [Hraise _].
  destruct (C10_single_command_unguarded nat demo_init demo_method demo_art
              (demo_args "abc123" (Some "FILE=y")) [] "FILE=y" demo_world _
              eq_refl eq_refl eq_refl eq_refl) as [_ Hdirective].
  destruct (Hraise (bound get_addrs) e _ eq_refl eq_refl) as (Hmain & _ & Hunhandled).
  destruct (Hunhandled eq_refl) as [Hu Hs].
  assert (Hin : "FILE=y" ∈ ["FILE=y"; "FILE=n"; "JSON=y"; "JSON=n"]).
  { rewrite elem_of_cons. left. reflexivity. }
  destruct (Hdirective Hin) as (Hmain' & Hapi & _).
  split; [unfold run; rewrite Hmain; reflexivity|].
  split; [exact Hu|]. split; [exact Hs|].
  split; [unfold run; rewrite Hmain'; reflexivity|].
  split; [unfold run; rewrite Hmain'; reflexivity|].
  unfold run. rewrite Hapi. reflexivity.
Defined.

(** ** The further properties on the demo collaborator *)

Lemma X1_eof_does_not_end_the_loop_witness :
  interactive_loop demo_method [EOF; EOF] demo_world
  = (Blocked,
     record [prompt; error_report eof_error; prompt; error_report eof_error; prompt]
       demo_world).
Proof.
  exact (proj2 (proj2 (X1_eof_does_not_end_the_loop nat demo_method 2 demo_world eq_refl))).
Defined.

Lemma X2_padding_is_ignored_witness :
  loop_iteration demo_method (Some (Line ("  help " +:+ tab))) demo_world
  = loop_iteration demo_method (Some (Line "help")) demo_world
  /\ loop_iteration demo_method (Some (Line (" " +:+ tab +:+ " "))) demo_world
     = (Ok tt, record [prompt] demo_world).
Proof.
  split.
  - exact (proj1 (X2_padding_is_ignored nat demo_method ("  help " +:+ tab) demo_world)).
  - exact (proj2 (X2_padding_is_ignored nat demo_method (" " +:+ tab +:+ " ") demo_world)
             eq_refl eq_refl).
Defined.


Lemma X4_bound_command_witness :
  loop_iteration demo_method (Some (Line " cache ")) demo_world
  = (Ok tt, upd {| write_file := false; json_dump := false; rest := 1 |}
                [prompt; Invoke (bound clear_cache); Call clear_cache] demo_world).
Proof.
  exact (X4_bound_command nat demo_method " cache " clear_cache demo_world []
           _ eq_refl eq_refl eq_refl).
Defined.


Lemma X6_list_and_help_witness :
  loop_iteration demo_method (Some (Line " list")) demo_world
  = (Ok tt, record (prompt :: Invoke print_commands_fn
                    :: flat_map help_row command_list) demo_world)
  /\ loop_iteration demo_method (Some (Line "help")) demo_world
     = loop_iteration demo_method (Some (Line " list")) demo_world.
Proof.
  pose proof (proj1 (X6_list_and_help nat demo_method " list" demo_world eq_refl
                       (or_introl eq_refl))) as Hlist.
  pose proof (proj1 (X6_list_and_help nat demo_method "help" demo_world eq_refl
                       (or_intror eq_refl))) as Hhelp.
  split; [exact Hlist|]. rewrite Hlist. exact Hhelp.
Defined.

Lemma X7_help_table_matches_registry_witness :
  is_Some (commands !! "photos")
  /\ "wtagged" ∈ command_list.*1
  /\ (is_Some (commands !! "quit") /\ "quit" ∉ command_list.*1).
Proof.
  destruct X7_help_table_matches_registry as (Hrow & Hcmd & Hhidden & _).
  split; [|split].
  - assert (Hin : "photos" ∈ command_list.*1).
    { apply (bool_decide_unpack _). vm_compute. exact I. }
    destruct (Hrow "photos" Hin) as [H|[H|H]]; [discriminate H|discriminate H|exact H].
  - destruct (Hcmd "wtagged" (ex_intro _ (bound get_people_who_tagged) eq_refl))
      as [H|H]; [|exact H].
    rewrite !elem_of_cons, elem_of_nil in H.
    destruct H as [H|[H|[H|[H|[]]]]]; discriminate H.
  - apply Hhidden. rewrite !elem_of_cons. auto.
Defined.


Lemma X9_invalid_name_rejected_witness :
  main demo_init demo_method demo_art (demo_args "john_doe" (Some "info")) []
    demo_world
  = (Raise (SystemExit (Some 1%Z)), record [invalid_username] (installed demo_world))
  /\ main demo_init demo_method demo_art (demo_args "" None) [Line "list"] demo_world
     = (Raise (SystemExit (Some 1%Z)), record [invalid_username] (installed demo_world)).
Proof.
  split.
  - apply (X9_invalid_name_rejected nat demo_init demo_method demo_art
             (demo_args "john_doe" (Some "info")) [] demo_world eq_refl).
    right. exists "john", "_"%char, "doe". split; reflexivity.
  - apply (X9_invalid_name_rejected nat demo_init demo_method demo_art
             (demo_args "" None) [Line "list"] demo_world eq_refl).
    left. reflexivity.
Defined.

Lemma X10_constructor_failure_witness :
  let e := ExceptionOf "ConnectionError" "login failed" in
  let run := main demo_init_failing demo_method demo_art (demo_args "abc123" None)
               [Line "list"] demo_world in
  run = (Raise e, upd (api demo_world) [New (demo_args "abc123" None)]
                    (installed demo_world))
  /\ unhandled_error run.1 = true
  /\ exit_status run.1 = Some 1%Z.
Proof.
  intros e run.
  destruct (X10_constructor_failure nat demo_init_failing demo_method demo_art
              (demo_args "abc123" None) [Line "list"] demo_world e (api demo_world)
              eq_refl eq_refl eq_refl) as [Hmain Hend].
  split; [exact Hmain|]. exact (Hend eq_refl).
Defined.

Lemma X11_interactive_start_witness :
  let args := demo_args "abc123" (Some "") in
  main demo_init demo_method demo_art args [Line "quit"] demo_world
  = interactive_loop demo_method [Line "quit"]
      (upd (api demo_world) (New args :: logo_events demo_art) (installed demo_world))
  /\ exists evs,
       trace (main demo_init demo_method demo_art args [Line "quit"] demo_world).2
       = trace demo_world ++ New args :: logo_events demo_art ++ prompt :: evs.
Proof.
  intros args.
  destruct (X11_interactive_start nat demo_init demo_method demo_art args
              [Line "quit"] demo_world (api demo_world) eq_refl eq_refl eq_refl eq_refl)
    as (Hmain & _ & Htrace).
  split; [exact Hmain|]. exact (Htrace _ _ (surjective_pairing _)).
Defined.

Lemma X12_startup_name_not_stripped_witness :
  let args := demo_args "abc123" (Some " list") in
  commands !! " list" = None
  /\ main demo_init demo_method demo_art args [] demo_world
     = (Ok tt, record [unknown_name " list"]
                 (upd (api demo_world) [New args] (installed demo_world))).
Proof.
  intros args.
  apply (X12_startup_name_not_stripped nat demo_init demo_method demo_art args []
           " list" demo_world (api demo_world) eq_refl eq_refl eq_refl eq_refl).
  intros H. discriminate H.
Defined.

Lemma X13_one_prompt_one_command_per_turn_witness :
  exists evs,
    trace (interactive_loop demo_method
             [Line "list"; Line "zzz"; Line "quit"; Line "info"] demo_world).2
    = trace demo_world ++ evs
    /\ 1 <= count_events is_prompt evs <= 5
    /\ count_events is_Invoke evs <= count_events is_prompt evs
    /\ count_events is_Invoke evs <= 4.
Proof.
  exact (X13_one_prompt_one_command_per_turn nat demo_method
           [Line "list"; Line "zzz"; Line "quit"; Line "info"] demo_world _ _
           eq_refl (surjective_pairing _)).
Defined.
